(** * Filterbank: axis set-up, blob geometry, DC blanking and writers

    A shallow embedding of the [Filterbank] class of
    [src/filterbank/filterbank2.py] (Python 2, numpy, h5py).

    Conventions of the embedding:
    - Python integers are [Z]; [/] on two integers is Python 2 floor
      division ([Z.div]) and raises [ZeroDivisionError] on a zero divisor;
      [%] is [Z.modulo].
    - Python and numpy floating-point numbers are exact rationals [Q];
      rounding, infinities and NaN are not modelled.
    - A numpy array is its shape together with its items as nested lists;
      the data array has shape (time, beam, frequency).
    - The header dictionary is a finite map from field names to values.
      The dictionary object is shared with the reader the object was
      opened from; that sharing is not tracked.
    - A Python exception is the [Err] case of [result]; what the method
      had assigned before raising is dropped with it.
    - The reader object ([file_wrapper]), the header serialiser
      ([sigproc_header]) and h5py lie outside the class: their methods are
      parameters of the definitions that call them. *)

From Stdlib Require Import ZArith QArith Qminmax Qround Qabs Lia List Sorted.
From stdpp Require Import gmap strings list sorting.

Local Open Scope Z_scope.

(** ** Exceptions and the error monad *)

Inductive exn : Type :=
| KeyError (key : string)
| TypeError
| IndexError
| ValueError
| AttributeError
| ZeroDivisionError.

Inductive result (A : Type) : Type :=
| Ok (a : A)
| Err (e : exn).
Arguments Ok {A} a.
Arguments Err {A} e.

#[global] Instance result_ret : MRet result := fun A a => Ok a.

#[global] Instance result_bind : MBind result := fun A B k r =>
  match r with
  | Ok a => k a
  | Err e => Err e
  end.

(** Python 2 [a / b] on integers. *)
Definition py_div (a b : Z) : result Z :=
  if Z.eqb b 0 then Err ZeroDivisionError else Ok (a / b).

(** Python [a % b] on integers. *)
Definition py_mod (a b : Z) : result Z :=
  if Z.eqb b 0 then Err ZeroDivisionError else Ok (a mod b).

(** ** Configuration values *)

Definition MAX_BLOB_MB : Z := 256.

(** ** Python sequences *)

Module Py.

(** [seq[i]] for an integer [i]: a negative index counts from the end. *)
Definition index (len i : Z) : result nat :=
  let k := if i <? 0 then i + len else i in
  if (0 <=? k) && (k <? len) then Ok (Z.to_nat k) else Err IndexError.

(** One bound of [slice(start, stop).indices(len)] with step 1. *)
Definition clamp_bound (len b : Z) : Z :=
  if b <? 0 then Z.max (b + len) 0 else Z.min b len.

Definition slice_indices (len start stop : Z) : Z * Z :=
  (clamp_bound len start, clamp_bound len stop).

(** [l[start:stop]]. *)
Definition slice {A : Type} (l : list A) (start stop : Z) : list A :=
  let '(a, b) := slice_indices (Z.of_nat (length l)) start stop in
  take (Z.to_nat (b - a)) (drop (Z.to_nat a) l).

(** [range(n)]. *)
Definition range (n : Z) : list Z := seqZ 0 n.

(** [needle in haystack] on strings. *)
Fixpoint contains (needle haystack : string) : bool :=
  String.prefix needle haystack
  || match haystack with
     | EmptyString => false
     | String _ rest => contains needle rest
     end.

(** Truth value of an optional float argument: [None] and [0.0] are false. *)
Definition truthy (o : option Q) : option Q :=
  match o with
  | Some q => if Qeq_bool q 0 then None else Some q
  | None => None
  end.

Definition truthy_int (o : option Z) : option Z :=
  match o with
  | Some z => if z =? 0 then None else Some z
  | None => None
  end.

(** [a / b] on floats. *)
Definition true_div (a b : Q) : result Q :=
  if Qeq_bool b 0 then Err ZeroDivisionError else Ok (a / b)%Q.

Definition Qltb (a b : Q) : bool :=
  match (a ?= b)%Q with
  | Lt => true
  | _ => false
  end.

End Py.

(** ** Header values *)

Inductive value : Type :=
| VInt (z : Z)
| VFloat (q : Q)
| VStr (s : string).

(** [header[key]]. *)
Definition getitem (h : gmap string value) (key : string) : result value :=
  match h !! key with
  | Some v => Ok v
  | None => Err (KeyError key)
  end.

(** The number held by a header value, for arithmetic. *)
Definition number (v : value) : result Q :=
  match v with
  | VInt z => Ok (inject_Z z)
  | VFloat q => Ok q
  | VStr _ => Err TypeError
  end.

(** [v < 0]; Python 2 orders a string after every number. *)
Definition lt_zero (v : value) : bool :=
  match v with
  | VInt z => z <? 0
  | VFloat q => Py.Qltb q 0
  | VStr _ => false
  end.

(** [v / d] for a non-zero integer literal [d]: floor division on an
    integer, true division on a float. *)
Definition div_by (v : value) (d : Z) : result Q :=
  match v with
  | VInt z => Ok (inject_Z (z / d))
  | VFloat q => Ok (q / inject_Z d)%Q
  | VStr _ => Err TypeError
  end.

(** ** numpy arrays *)

Module Np.

(** A three-dimensional array: its shape and its items, outermost axis
    first. *)
Record ndarray : Type := mk_ndarray {
  shape : Z * Z * Z;
  items : list (list (list Q))
}.

(** The items agree with the shape. *)
Definition wf (a : ndarray) : Prop :=
  let '(T, B, F) := shape a in
  Z.of_nat (length (items a)) = T /\
  Forall (fun plane =>
            Z.of_nat (length plane) = B /\
            Forall (fun row => Z.of_nat (length row) = F) plane)
         (items a).

(** [np.arange(a, b)] *)
Definition arange (a b : Z) : list Z := seqZ a (b - a).

(** [np.int(x)]: truncation toward zero. *)
Definition int (x : Q) : Z := Z.quot (Qnum x) (Zpos (Qden x)).

(** [a.ravel()] in C order. *)
Definition ravel (it : list (list (list Q))) : list Q := concat (concat it).

(** [a[..., start:stop]] *)
Definition chan_slice (start stop : Z) (it : list (list (list Q)))
  : list (list (list Q)) :=
  map (map (fun row => Py.slice row start stop)) it.

(** [a[..., k] = v] for an index [k] already brought into range. *)
Definition set_chan (k : nat) (v : Q) (it : list (list (list Q)))
  : list (list (list Q)) :=
  map (map (fun row => <[k := v]> row)) it.

(** [a[:, ::-1]]: the second axis in reverse order. *)
Definition rev_axis1 (it : list (list (list Q))) : list (list (list Q)) :=
  map (@rev (list Q)) it.


Fixpoint insert_sorted (x : Q) (l : list Q) : list Q :=
  match l with
  | [] => [x]
  | y :: l' => if Qle_bool x y then x :: l else y :: insert_sorted x l'
  end.

Definition sort (l : list Q) : list Q := foldr insert_sorted [] l.

(** [np.median] of the flattened input: the middle element of the sorted
    values, or the mean of the two middle ones.  numpy returns NaN on an
    empty input; [0] stands for it here. *)
Definition median (l : list Q) : Q :=
  let s := sort l in
  let n := length s in
  if Nat.even n
  then ((nth (n / 2 - 1) s 0 + nth (n / 2) s 0) / 2)%Q
  else nth (n / 2) s 0%Q.

(** [a[t, b, f]] for indices within the array. *)
Definition item (a : ndarray) (t b f : nat) : option Q :=
  plane ← items a !! t; row ← plane !! b; row !! f.

(** The channels after channel [k], at most [count] of them: what is
    left of each row after its first [k + 1] entries, cut to [count]. *)
Definition following (k count : nat) (it : list (list (list Q)))
  : list (list (list Q)) :=
  map (map (fun row => take count (drop (S k) row))) it.

(** [np.zeros(shape)] *)
Definition zeros (sh : Z * Z * Z) : ndarray :=
  let '(T, B, F) := sh in
  {| shape := sh;
     items := replicate (Z.to_nat T)
                (replicate (Z.to_nat B) (replicate (Z.to_nat F) 0%Q)) |}.

(** Wrap an integer into the signed range of [bits] bits. *)
Definition wrap_signed (bits : Z) (z : Z) : Z :=
  (z + 2 ^ (bits - 1)) mod 2 ^ bits - 2 ^ (bits - 1).

Inductive dtype : Type := float32 | int16 | int8.

(** Conversion of one sample to a dtype. *)
Definition cast (d : dtype) (x : Q) : Q :=
  match d with
  | float32 => x
  | int16 => inject_Z (wrap_signed 16 (int x))
  | int8 => inject_Z (wrap_signed 8 (int x))
  end.

End Np.

(** ** The chunked container (h5py) *)

Module H5.

(** What [__get_chunk_dimentions] returns: a 3-tuple, or the value [True]
    that lets the container choose its own tiling. *)
Inductive chunk_dim : Type :=
| ChunkTuple (ct cb cf : Z)
| ChunkTrue.

(** The left-hand sides the writers use: [dset[t_start:t_stop]] and
    [dset[t_start:t_stop, beam, c_start:c_stop]]. *)
Inductive selection : Type :=
| SelRows (t_start t_stop : Z)
| SelBlock (t_start t_stop beam c_start c_stop : Z).

(** A slice whose stop lies before its start once both are brought into
    the axis. *)
Definition slice_reversed (len start stop : Z) : bool :=
  let '(a, b) := Py.slice_indices len start stop in b <? a.

Definition reverse_order (sh : Z * Z * Z) (sel : selection) : bool :=
  let '(T, _, F) := sh in
  match sel with
  | SelRows t_start t_stop => slice_reversed T t_start t_stop
  | SelBlock t_start t_stop _ c_start c_stop =>
      slice_reversed T t_start t_stop || slice_reversed F c_start c_stop
  end.

(** h5py releases differ on a reverse-order slice: the 2.x series raises
    [ValueError] ("Reverse-order selections are not allowed"), later
    releases take it as an empty selection and store nothing. *)
Inductive reverse_policy : Type :=
| RejectReverse
| EmptyReverse.

(** The output file of the chunked writers. *)
Record file : Type := mk_file {
  attrs_CLASS : option string;
  chunks : option chunk_dim;
  dset : Np.ndarray;
  dset_mask : Np.ndarray;
  dset_attrs : gmap string value
}.

End H5.

(** ** The reader object of [file_wrapper] *)

Record Container : Type := mk_Container {
  c_header : gmap string value;
  c_n_ints_in_file : Z;
  c_heavy : bool;
  c_file_shape : Z * Z * Z;
  c_n_channels_in_file : Z;
  c_data : Np.ndarray;
  c_freqs : list Q;
  c_timestamps : list Q;
  c_c_start : Z;
  c_t_start : Z
}.

(** ** The Filterbank object *)

(** Attributes that exist only on an object opened from a file. *)
Record FileAttrs : Type := mk_FileAttrs {
  container : Container;
  timestamps : list Q;
  heavy : bool;
  file_shape : Z * Z * Z;
  n_channels_in_file : Z
}.

Record Filterbank : Type := mk_Filterbank {
  filename : string;
  header : gmap string value;
  n_ints_in_file : Z;
  data : Np.ndarray;
  freqs : list Q;
  file_attrs : option FileAttrs
}.

Definition set_header (self : Filterbank) (h : gmap string value) : Filterbank :=
  {| filename := filename self; header := h;
     n_ints_in_file := n_ints_in_file self; data := data self;
     freqs := freqs self; file_attrs := file_attrs self |}.

Definition set_data (self : Filterbank) (d : Np.ndarray) : Filterbank :=
  {| filename := filename self; header := header self;
     n_ints_in_file := n_ints_in_file self; data := d;
     freqs := freqs self; file_attrs := file_attrs self |}.

Definition set_freqs (self : Filterbank) (f : list Q) : Filterbank :=
  {| filename := filename self; header := header self;
     n_ints_in_file := n_ints_in_file self; data := data self;
     freqs := f; file_attrs := file_attrs self |}.

(** Access to an attribute that only a file-backed object has. *)
Definition get_file_attrs (self : Filterbank) : result FileAttrs :=
  match file_attrs self with
  | Some fa => Ok fa
  | None => Err AttributeError
  end.

(** The written flat file: the header bytes and, when the sample width is
    1, 2 or 4 bytes, the samples with their dtype. *)
Record FilFile : Type := mk_FilFile {
  fil_header : string;
  fil_samples : option (Np.dtype * list Q)
}.

(** *** Axis set-up *)

Definition _setup_freqs (self : Filterbank) (f_start f_stop : option Q)
  : result (Filterbank * (Q * Q * Z * Z)) :=
  f0 ← getitem (header self) "fch1" ≫= number;
  f_delt ← getitem (header self) "foff" ≫= number;
  nchans ← getitem (header self) "nchans";
  i_start ← match Py.truthy f_start with
            | Some f => Py.true_div (f - f0) f_delt
            | None => Ok 0%Q
            end;
  i_stop ← match Py.truthy f_stop with
           | Some f => Py.true_div (f - f0) f_delt
           | None => number nchans
           end;
  let chan_start_idx := Np.int i_start in
  let chan_stop_idx := Np.int i_stop in
  let i_vals :=
    if Py.Qltb i_start i_stop
    then Np.arange chan_start_idx chan_stop_idx
    else Np.arange chan_stop_idx chan_start_idx in
  let fs := map (fun i => f_delt * inject_Z i + f0)%Q i_vals in
  let fs := if Py.Qltb f_delt 0 then rev fs else fs in
  Ok (set_freqs self fs, (i_start, i_stop, chan_start_idx, chan_stop_idx)).

(** The arguments of the [np.arange] call in [_setup_freqs], as a pair. *)
Definition i_vals_bounds (ret : Q * Q * Z * Z) : Z * Z :=
  let '(i_start, i_stop, chan_start_idx, chan_stop_idx) := ret in
  if Py.Qltb i_start i_stop
  then (chan_start_idx, chan_stop_idx)
  else (chan_stop_idx, chan_start_idx).

Definition gen_from_header (header_dict : gmap string value)
    (data_array : Np.ndarray) : result Filterbank :=
  let self := {| filename := ""; header := header_dict; n_ints_in_file := 0;
                 data := data_array; freqs := []; file_attrs := None |} in
  '(self, _) ← _setup_freqs self None None;
  Ok self.

(** The time axis computed by [__setup_time_axis]. *)
Definition __setup_time_axis (h : gmap string value) (n_ints_in_file : Z)
    (t_start t_stop : option Z) : result (list Q) :=
  let ii_start := default 0 (Py.truthy_int t_start) in
  let ii_stop := default n_ints_in_file (Py.truthy_int t_stop) in
  let n_ints := ii_stop - ii_start in
  t0 ← getitem h "tstart" ≫= number;
  t_delt ← getitem h "tsamp" ≫= number;
  Ok (map (fun i => inject_Z i * t_delt / 24 / 60 / 60 + t0)%Q
          (Np.arange 0 n_ints)).

(** [__init__] with a file name; [c] is what [fw.open_file] returned. *)
Definition __init__ (name : string) (c : Container) : result Filterbank :=
  ts ← __setup_time_axis (c_header c) (c_n_ints_in_file c) None None;
  Ok {| filename := name; header := c_header c;
        n_ints_in_file := c_n_ints_in_file c;
        data := c_data c; freqs := c_freqs c;
        file_attrs := Some {| container := c; timestamps := c_timestamps c;
                              heavy := c_heavy c;
                              file_shape := c_file_shape c;
                              n_channels_in_file := c_n_channels_in_file c |} |}.

(** *** DC blanking *)

(** One turn of the loop of [blank_dc]. *)
Definition blank_dc_step (n_chan n_chan_per_coarse mid_chan : Z)
    (it : list (list (list Q))) (ii : Z) : result (list (list (list Q))) :=
  let ss := ii * n_chan_per_coarse in
  let v := Np.median
             (Np.ravel (Np.chan_slice (ss + mid_chan + 1) (ss + mid_chan + 10) it)) in
  k ← Py.index n_chan (ss + mid_chan);
  Ok (Np.set_chan k v it).

(** The loop: the array is updated in place, one band after the other. *)
Fixpoint blank_dc_loop (n_chan n_chan_per_coarse mid_chan : Z)
    (bands : list Z) (it : list (list (list Q)))
  : result (list (list (list Q))) :=
  match bands with
  | [] => Ok it
  | ii :: rest =>
      it' ← blank_dc_step n_chan n_chan_per_coarse mid_chan it ii;
      blank_dc_loop n_chan n_chan_per_coarse mid_chan rest it'
  end.

Definition blank_dc (self : Filterbank) (n_coarse_chan : Z) : result Filterbank :=
  let n_chan := (Np.shape (data self)).2 in
  n_chan_per_coarse ← py_div n_chan n_coarse_chan;
  let mid_chan := n_chan_per_coarse / 2 - 1 in
  it ← blank_dc_loop n_chan n_chan_per_coarse mid_chan
         (Py.range n_coarse_chan) (Np.items (data self));
  Ok (set_data self {| Np.shape := Np.shape (data self); Np.items := it |}).

(** The channel written for band [ii], and the values the loop of
    [blank_dc] stores, as a list of (channel, value) pairs computed from
    the array as it was before the call. *)
Definition dc_index (n_chan_per_coarse ii : Z) : Z :=
  ii * n_chan_per_coarse + (n_chan_per_coarse / 2 - 1).

Definition dc_updates (n_chan_per_coarse : Z) (it : list (list (list Q)))
    (bands : list Z) : list (nat * Q) :=
  map (fun ii =>
         let idx := dc_index n_chan_per_coarse ii in
         (Z.to_nat idx,
          Np.median (Np.ravel (Np.chan_slice (idx + 1) (idx + 10) it))))
      bands.

(** A row after the pairs have been stored, first pair first. *)
Definition apply_updates (ups : list (nat * Q)) (row : list Q) : list Q :=
  foldl (fun r kv => <[kv.1 := kv.2]> r) row ups.

(** *** Blob and chunk geometry *)

Definition __get_chunk_dimentions (self : Filterbank) : H5.chunk_dim :=
  if Py.contains "gpuspec.0000." (filename self) then H5.ChunkTuple 1 1 1048576
  else if Py.contains "gpuspec.0001." (filename self) then H5.ChunkTuple 512 1 2048
  else if Py.contains "gpuspec.0002." (filename self) then H5.ChunkTuple 10 1 65536
  else H5.ChunkTrue.

(** [freq_axis = 2] and [time_axis = 0]; indexing the value [True] raises
    [TypeError]. *)
Definition __get_blob_dimentions (self : Filterbank) (chunk_dim : H5.chunk_dim)
  : result (Z * Z * Z) :=
  fa ← get_file_attrs self;
  match chunk_dim with
  | H5.ChunkTrue => Err TypeError
  | H5.ChunkTuple ct _ cf =>
      let freq_axis_size := Z.min (n_channels_in_file fa) (cf * MAX_BLOB_MB) in
      time_axis_size ← py_div (ct * MAX_BLOB_MB * cf) freq_axis_size;
      Ok (time_axis_size, 1, freq_axis_size)
  end.

(** Size in bytes of one blob of the given shape at [nbits] bits a sample. *)
Definition blob_bytes (blob_dim : Z * Z * Z) (nbits : Z) : Z :=
  let '(t, b, f) := blob_dim in t * b * f * (nbits / 8).

Definition MiB : Z := 1048576.

(** *** Writers and reader *)

Section Collaborators.

(** [generate_sigproc_header] of [sigproc_header]. *)
Variable generate_sigproc_header : Filterbank -> string.

(** Methods of the reader object of [file_wrapper]. *)
Variable read_blob : Container -> Z * Z * Z -> Z -> Np.ndarray.
Variable calc_n_blobs : Container -> Z * Z * Z -> Z.
Variable container_read_data :
  Container -> option Q -> option Q -> option Z -> option Z -> Container.

(** What h5py stores for a selection that is not in reverse order. *)
Variable h5_store : Np.ndarray -> H5.selection -> Np.ndarray -> result Np.ndarray.

Variable policy : H5.reverse_policy.

(** [dset[sel] = bob[:]] *)
Definition dset_setitem (d : Np.ndarray) (sel : H5.selection) (bob : Np.ndarray)
  : result Np.ndarray :=
  if H5.reverse_order (Np.shape d) sel
  then match policy with
       | H5.RejectReverse => Err ValueError
       | H5.EmptyReverse => Ok d
       end
  else h5_store d sel bob.

Definition __load_data (self : Filterbank) (fa : FileAttrs) : Filterbank :=
  let c := container fa in
  {| filename := filename self; header := header self;
     n_ints_in_file := n_ints_in_file self;
     data := c_data c; freqs := c_freqs c;
     file_attrs := Some {| container := c; timestamps := c_timestamps c;
                           heavy := heavy fa; file_shape := file_shape fa;
                           n_channels_in_file := n_channels_in_file fa |} |}.

Definition read_data (self : Filterbank) (f_start f_stop : option Q)
    (t_start t_stop : option Z) : result Filterbank :=
  fa ← get_file_attrs self;
  let c := container_read_data (container fa) f_start f_stop t_start t_stop in
  Ok (__load_data self
        {| container := c; timestamps := timestamps fa; heavy := heavy fa;
           file_shape := file_shape fa;
           n_channels_in_file := n_channels_in_file fa |}).

Definition write_to_fil (self : Filterbank) : result (Filterbank * FilFile) :=
  f0 ← from_option Ok (Err IndexError) (freqs self !! 0%nat);
  f1 ← from_option Ok (Err IndexError) (freqs self !! 1%nat);
  let h := <["nchans" := VInt (Z.of_nat (length (freqs self)))]>
             (<["foff" := VFloat (f1 - f0)]>
                (<["fch1" := VFloat f0]> (header self))) in
  let self := set_header self h in
  nbits ← getitem (header self) "nbits";
  n_bytes ← div_by nbits 8;
  let j := Np.items (data self) in
  let out (d : Np.dtype) := Some (d, map (Np.cast d) (Np.ravel (Np.rev_axis1 j))) in
  let samples :=
    if Qeq_bool n_bytes 4 then out Np.float32
    else if Qeq_bool n_bytes 2 then out Np.int16
    else if Qeq_bool n_bytes 1 then out Np.int8
    else None in
  Ok (self, {| fil_header := generate_sigproc_header self;
               fil_samples := samples |}).

(** The destination of blob [ii] when the blobs split the frequency axis:
    the selection [t_start:t_stop, 0, c_start:c_stop]. *)
Definition blob_selection (self : Filterbank) (fa : FileAttrs)
    (blob_dim : Z * Z * Z) (ii : Z) : result H5.selection :=
  let '(blob_t, _, blob_f) := blob_dim in
  let c_start := c_c_start (container fa) + ii * blob_f in
  q ← py_div c_start (n_channels_in_file fa);
  let t_start := c_t_start (container fa) + q * blob_t in
  let t_stop := t_start + blob_f in
  foff ← getitem (header self) "foff";
  if lt_zero foff
  then
    r ← py_mod c_start (n_channels_in_file fa);
    let c_start := n_channels_in_file fa - r in
    let c_stop := c_start - blob_f in
    Ok (H5.SelBlock t_start t_stop 0 c_start c_stop)
  else
    r ← py_mod c_start (n_channels_in_file fa);
    let c_start := r in
    let c_stop := c_start + blob_f in
    Ok (H5.SelBlock t_start t_stop 0 c_start c_stop).

(** The loop over the blobs that split the frequency axis. *)
Fixpoint write_blobs_by_channel (self : Filterbank) (fa : FileAttrs)
    (blob_dim : Z * Z * Z) (blobs : list Z) (d : Np.ndarray)
  : result Np.ndarray :=
  match blobs with
  | [] => Ok d
  | ii :: rest =>
      let bob := read_blob (container fa) blob_dim ii in
      sel ← blob_selection self fa blob_dim ii;
      d' ← dset_setitem d sel bob;
      write_blobs_by_channel self fa blob_dim rest d'
  end.

(** The loop over the blobs that span the whole frequency axis. *)
Fixpoint write_blobs_by_time (self : Filterbank) (fa : FileAttrs)
    (blob_dim : Z * Z * Z) (blobs : list Z) (d : Np.ndarray)
  : result Np.ndarray :=
  match blobs with
  | [] => Ok d
  | ii :: rest =>
      let bob := read_blob (container fa) blob_dim ii in
      let t_start := c_t_start (container fa) + ii * blob_dim.1.1 in
      let t_stop := Z.min ((ii + 1) * blob_dim.1.1) (n_ints_in_file self) in
      d' ← dset_setitem d (H5.SelRows t_start t_stop) bob;
      write_blobs_by_time self fa blob_dim rest d'
  end.

Definition __write_to_hdf5_heavy (self : Filterbank) : result H5.file :=
  fa ← get_file_attrs self;
  let chunk_dim := __get_chunk_dimentions self in
  blob_dim ← __get_blob_dimentions self chunk_dim;
  let n_blobs := calc_n_blobs (container fa) blob_dim in
  let d0 := Np.zeros (file_shape fa) in
  d ← (if blob_dim.2 <? n_channels_in_file fa
       then write_blobs_by_channel self fa blob_dim (Py.range n_blobs) d0
       else write_blobs_by_time self fa blob_dim (Py.range n_blobs) d0);
  Ok {| H5.attrs_CLASS := Some "FILTERBANK";
        H5.chunks := Some chunk_dim;
        H5.dset := d;
        H5.dset_mask := Np.zeros (file_shape fa);
        H5.dset_attrs := header self |}.

Definition __write_to_hdf5_light (self : Filterbank) : result H5.file :=
  fa ← get_file_attrs self;
  Ok {| H5.attrs_CLASS := None;
        H5.chunks := None;
        H5.dset := data self;
        H5.dset_mask := Np.zeros (file_shape fa);
        H5.dset_attrs := header self |}.

Definition write_to_hdf5 (self : Filterbank) : result H5.file :=
  fa ← get_file_attrs self;
  if heavy fa then __write_to_hdf5_heavy self else __write_to_hdf5_light self.

End Collaborators.

(** ** Example objects *)

Module Examples.

(** The header [{fch1: 1420.0, foff: -0.5, nchans: 4}], with 32-bit samples. *)
Definition header_1420 : gmap string value :=
  <["fch1" := VFloat 1420.0]>
    (<["foff" := VFloat (-0.5)]>
       (<["nchans" := VInt 4]> (<["nbits" := VInt 32]> ∅))).

(** One integration, one beam, four channels. *)
Definition data_1x1x4 : Np.ndarray :=
  {| Np.shape := (1, 1, 4); Np.items := [[[10; 20; 30; 40]]]%Q |}.

(** The object before [_setup_freqs] has run. *)
Definition fb_1420_raw : Filterbank :=
  {| filename := ""; header := header_1420; n_ints_in_file := 0;
     data := data_1x1x4; freqs := []; file_attrs := None |}.

(** What [Filterbank(header_dict=h, data_array=d)] builds. *)
Definition from_header (h : gmap string value) (d : Np.ndarray) : Filterbank :=
  match gen_from_header h d with
  | Ok self => self
  | Err _ => {| filename := ""; header := h; n_ints_in_file := 0;
                data := d; freqs := []; file_attrs := None |}
  end.

Definition header_of (fch1 foff : Q) (nchans nifs : Z) : gmap string value :=
  <["fch1" := VFloat fch1]>
    (<["foff" := VFloat foff]>
       (<["nchans" := VInt nchans]>
          (<["nifs" := VInt nifs]> (<["nbits" := VInt 32]> ∅)))).

(** One integration, one beam, eight channels. *)
Definition fb_8chan : Filterbank :=
  from_header (header_of 1420.0 (-0.5) 8 1)
    {| Np.shape := (1, 1, 8); Np.items := [[[1; 2; 3; 4; 5; 6; 7; 8]]]%Q |}.

(** One integration, one beam, two channels. *)
Definition fb_2chan : Filterbank :=
  from_header (header_of 1420.0 (-0.5) 2 1)
    {| Np.shape := (1, 1, 2); Np.items := [[[1; 3]]]%Q |}.

(** The object built from the header [{fch1: 1420.0, foff: -0.5, nchans: 4}]. *)
Definition fb_1420 : Filterbank := from_header header_1420 data_1x1x4.




(** One integration, one beam, twenty-four channels in one band. *)
Definition fb_24chan : Filterbank :=
  from_header (header_of 1420.0 (-0.5) 24 1)
    {| Np.shape := (1, 1, 24);
       Np.items := [[[ 1;  2;  3;  4;  5;  6;  7;  8;  9; 10; 11; 12;
                      24; 23; 22; 21; 20; 19; 18; 17; 16; 15; 14; 13]]]%Q |}.

(** The header bytes play no part in the examples. *)
Definition header_bytes (self : Filterbank) : string := "".

(** A reader for a file of [n_ints] integrations and [n_chan] channels that
    is too large to load: no data is held in memory. *)
Definition heavy_container (h : gmap string value) (n_ints n_chan : Z)
  : Container :=
  {| c_header := h; c_n_ints_in_file := n_ints; c_heavy := true;
     c_file_shape := (n_ints, 1, n_chan); c_n_channels_in_file := n_chan;
     c_data := {| Np.shape := (0, 1, n_chan); Np.items := [] |};
     c_freqs := []; c_timestamps := [];
     c_c_start := 0; c_t_start := 0 |}.

Definition header_hires (nbits : Z) : gmap string value :=
  <["fch1" := VFloat 1420.0]>
    (<["foff" := VFloat (-0.5)]>
       (<["nchans" := VInt 1048576]>
          (<["nbits" := VInt nbits]>
             (<["tstart" := VFloat 57650]> (<["tsamp" := VFloat 18.25]> ∅))))).

Definition fa_hires : FileAttrs :=
  {| container := heavy_container (header_hires 32) 16 1048576;
     timestamps := []; heavy := true;
     file_shape := (16, 1, 1048576);
     n_channels_in_file := 1048576 |}.

(** A high-frequency-resolution product with 2^20 channels and 32-bit
    samples, as [Filterbank(filename)] builds it. *)
Definition fb_hires : Filterbank :=
  {| filename := "blc00_guppi.gpuspec.0000.fil";
     header := header_hires 32; n_ints_in_file := 16;
     data := {| Np.shape := (0, 1, 1048576); Np.items := [] |};
     freqs := [];
     file_attrs := Some fa_hires |}.

(** A medium-resolution product of 2^20 channels stored with descending
    frequencies: its blobs split the frequency axis in two halves. *)
Definition fa_heavy : FileAttrs :=
  {| container := heavy_container (header_hires 32) 16 1048576;
     timestamps := []; heavy := true;
     file_shape := (16, 1, 1048576);
     n_channels_in_file := 1048576 |}.

Definition fb_heavy : Filterbank :=
  {| filename := "blc00_guppi.gpuspec.0001.fil";
     header := header_hires 32; n_ints_in_file := 16;
     data := {| Np.shape := (0, 1, 1048576); Np.items := [] |};
     freqs := [];
     file_attrs := Some fa_heavy |}.

(** The same file with ascending frequencies. *)
Definition fb_heavy_up : Filterbank :=
  set_header fb_heavy (<["foff" := VFloat 0.5]> (header_hires 32)).

(** A reader that reports two blobs. *)
Definition two_blobs (c : Container) (blob_dim : Z * Z * Z) : Z := 2.

(** Stand-ins for the collaborators where an example needs one. *)
Definition blank_blob (c : Container) (blob_dim : Z * Z * Z) (ii : Z)
  : Np.ndarray := Np.zeros blob_dim.

Definition same_container (c : Container) (f_start f_stop : option Q)
    (t_start t_stop : option Z) : Container := c.

Definition store_nothing (d : Np.ndarray) (sel : H5.selection)
    (bob : Np.ndarray) : result Np.ndarray := Ok d.

(** The header of a small file, and a reader for it whose frequency axis
    is the one [_setup_freqs] computes from that header. *)
Definition header_1420_file : gmap string value :=
  <["tstart" := VFloat 57650]> (<["tsamp" := VFloat 18.25]> header_1420).

Definition light_container : Container :=
  {| c_header := header_1420_file; c_n_ints_in_file := 1; c_heavy := false;
     c_file_shape := (1, 1, 4); c_n_channels_in_file := 4;
     c_data := data_1x1x4;
     c_freqs := freqs fb_1420; c_timestamps := [57650%Q];
     c_c_start := 0; c_t_start := 0 |}.

(** What [Filterbank("obs.fil")] builds from that reader. *)
Definition fb_file : Filterbank :=
  match __init__ "obs.fil" light_container with
  | Ok self => self
  | Err _ => fb_1420
  end.

End Examples.

(** ** The claims under test, in the words of the specification *)

Module Claimed.

(** An operation signals an error. *)
Definition signals_error {A : Type} (r : result A) : Prop :=
  ∃ e, r = Err e.

(** Equal selection bounds are answered with an error, never with a
    zero-length frequency axis. *)
Definition equal_bounds_rejected (self : Filterbank) (f : Q) : Prop :=
  signals_error (_setup_freqs self (Some f) (Some f)).

(** The blob planned for the object stays within the byte ceiling. *)
Definition blob_within_ceiling (self : Filterbank) (nbits : Z) : Prop :=
  ∀ blob_dim,
    __get_blob_dimentions self (__get_chunk_dimentions self) = Ok blob_dim →
    blob_bytes blob_dim nbits ≤ MAX_BLOB_MB * MiB.

(** Two stored samples hold the same number, or are both absent. *)
Definition same_item (o1 o2 : option Q) : Prop :=
  match o1, o2 with
  | Some x, Some y => (x == y)%Q
  | None, None => True
  | _, _ => False
  end.



(** Only the DC channels change, and the shape stays. *)
Definition only_dc_channels_modified (self : Filterbank) (n_coarse_chan : Z)
  : Prop :=
  let n_chan := (Np.shape (data self)).2 in
  let per := n_chan / n_coarse_chan in
  ∀ self', blank_dc self n_coarse_chan = Ok self' →
    Np.shape (data self') = Np.shape (data self) ∧
    ∀ t b j,
      (∀ ii, 0 ≤ ii < n_coarse_chan → Z.of_nat j ≠ ii * per + per / 2 - 1) →
      same_item (Np.item (data self') t b j) (Np.item (data self) t b j).


(** Two header values are the same number, or the same value. *)
Definition same_value (v v' : value) : Prop :=
  match number v, number v' with
  | Ok q, Ok q' => (q == q')%Q
  | _, _ => v = v'
  end.

(** An operation leaves every field of the header as it was. *)
Definition header_kept (self self' : Filterbank) : Prop :=
  ∀ key,
    match header self !! key, header self' !! key with
    | Some v, Some v' => same_value v v'
    | None, None => True
    | _, _ => False
    end.

End Claimed.

(** ** Definitions for the further properties *)

(** The position [_setup_freqs] computes for a selection bound: the bound
    as a fractional channel number, or the default when the bound is
    absent or zero. *)
Definition bound_position (fch1 foff : Q) (bound : option Q) (dflt : Q) : Q :=
  match Py.truthy bound with
  | Some f => ((f - fch1) / foff)%Q
  | None => dflt
  end.

(** The channel numbers [_setup_freqs] generates the axis from. *)
Definition selected_channels (i_start i_stop : Q) : list Z :=
  if Py.Qltb i_start i_stop
  then Np.arange (Np.int i_start) (Np.int i_stop)
  else Np.arange (Np.int i_stop) (Np.int i_start).

(** The axis [_setup_freqs] builds without bounds for [nchans] channels:
    the channel frequencies, reversed when the spacing is negative. *)
Definition full_axis (fch1 foff : Q) (nchans : Z) : list Q :=
  let fs := map (fun i => foff * inject_Z i + fch1)%Q (seqZ 0 nchans) in
  if Py.Qltb foff 0 then rev fs else fs.

(** [seq[start:stop]] where [stop] may be [None]: up to the end. *)
Definition slice_to {A : Type} (l : list A) (start : Z) (stop : option Z)
  : list A :=
  Py.slice l start (default (Z.of_nat (length l)) stop).

Section Grab.

(** [closest] of [utils]: the index of the entry nearest to a value. *)
Variable closest : list Q → Q → Z.

(** [grab_data]: the part of the axis and of the data of one beam between
    the channels closest to the two frequencies. *)
Definition grab_data (self : Filterbank) (f_start f_stop : option Q)
    (if_id : Z) : result (list Q * list (list Q)) :=
  let i_start := match Py.truthy f_start with
                 | Some f => closest (freqs self) f
                 | None => 0
                 end in
  let i_stop := match Py.truthy f_stop with
                | Some f => Some (closest (freqs self) f)
                | None => None
                end in
  let plot_f := slice_to (freqs self) i_start i_stop in
  k ← Py.index (Np.shape (data self)).1.2 if_id;
  Ok (plot_f,
      map (fun plane => slice_to (default [] (plane !! k)) i_start i_stop)
          (Np.items (data self))).

End Grab.

(** [marker] occurs somewhere in [name]. *)
Definition occurs_in (marker name : string) : Prop :=
  ∃ before after, name = before +:+ marker +:+ after.

Module Objects.


(** A file too large to load whose name carries no product marker. *)
Definition fb_plain_heavy : Filterbank :=
  {| filename := "observation.fil";
     header := Examples.header_hires 32; n_ints_in_file := 16;
     data := {| Np.shape := (0, 1, 1048576); Np.items := [] |};
     freqs := [];
     file_attrs := Some Examples.fa_heavy |}.

(** A header of one channel, and one with 64-bit samples. *)
Definition header_1chan : gmap string value :=
  Examples.header_of 1420.0 (-0.5) 1 1.

Definition data_1x1x1 : Np.ndarray :=
  {| Np.shape := (1, 1, 1); Np.items := [[[7]]]%Q |}.

Definition fb_64bit : Filterbank :=
  set_header Examples.fb_1420 (<["nbits" := VInt 64]> Examples.header_1420).

(** The index of the first entry that is not below the value, in place of
    [closest]. *)
Fixpoint first_not_below (xs : list Q) (v : Q) : Z :=
  match xs with
  | [] => 0
  | x :: rest => if Py.Qltb x v then 1 + first_not_below rest v else 0
  end.

(** An array with integrations and a beam but no channel. *)
Definition fb_no_channels : Filterbank :=
  {| filename := ""; header := Examples.header_of 1420.0 (-0.5) 0 1;
     n_ints_in_file := 0;
     data := {| Np.shape := (1, 1, 0); Np.items := [[[]]] |};
     freqs := []; file_attrs := None |}.

End Objects.

(** * Properties *)

(** ** Blob geometry *)

Lemma py_div_pos a b : b ≠ 0 → py_div a b = Ok (a / b).
Proof.
  intros Hb. unfold py_div. destruct (Z.eqb_spec b 0); [ contradiction | reflexivity ].
Qed.

Lemma py_mod_pos a b : b ≠ 0 → py_mod a b = Ok (a mod b).
Proof.
  intros Hb. unfold py_mod. destruct (Z.eqb_spec b 0); [ contradiction | reflexivity ].
Qed.

(** The blob computed from a chunk tuple, with Python's floor division. *)
Lemma get_blob_dimentions_tuple (self : Filterbank) (fa : FileAttrs) (ct cb cf : Z) :
  file_attrs self = Some fa →
  0 < n_channels_in_file fa → 0 < cf →
  __get_blob_dimentions self (H5.ChunkTuple ct cb cf)
  = Ok ((ct * MAX_BLOB_MB * cf) / Z.min (n_channels_in_file fa) (cf * MAX_BLOB_MB),
        1,
        Z.min (n_channels_in_file fa) (cf * MAX_BLOB_MB)).
Proof.
  intros Hfa Hn Hcf.
  unfold __get_blob_dimentions, get_file_attrs. rewrite Hfa.
  cbn [mbind result_bind].
  rewrite py_div_pos by (unfold MAX_BLOB_MB; lia). reflexivity.
Qed.

(** C4: for a file with a positive channel count and a chunk tuple with a
    positive frequency extent and a non-negative time extent, the blob
    shape is (ct * B * cf / freq_extent, 1, freq_extent) with
    freq_extent = min(n_channels_in_file, cf * B), B = 256 and truncating
    division. *)
Theorem blob_dimentions_shape (self : Filterbank) (fa : FileAttrs) (ct cb cf : Z) :
  file_attrs self = Some fa →
  0 < n_channels_in_file fa → 0 < cf → 0 ≤ ct →
  MAX_BLOB_MB = 256 ∧
  __get_blob_dimentions self (H5.ChunkTuple ct cb cf)
  = Ok ((ct * MAX_BLOB_MB * cf) ÷ Z.min (n_channels_in_file fa) (cf * MAX_BLOB_MB),
        1,
        Z.min (n_channels_in_file fa) (cf * MAX_BLOB_MB)).
Proof.
  intros Hfa Hn Hcf Hct. split; [ reflexivity | ].
  rewrite (get_blob_dimentions_tuple self fa ct cb cf Hfa Hn Hcf).
  rewrite Z.quot_div_nonneg; [ reflexivity | unfold MAX_BLOB_MB; nia
                             | unfold MAX_BLOB_MB; lia ].
Qed.

Lemma blob_dimentions_shape_witness :
  MAX_BLOB_MB = 256 ∧
  __get_blob_dimentions Examples.fb_hires (H5.ChunkTuple 1 1 1048576)
  = Ok ((1 * MAX_BLOB_MB * 1048576) ÷ Z.min 1048576 (1048576 * MAX_BLOB_MB),
        1,
        Z.min 1048576 (1048576 * MAX_BLOB_MB)).
Proof.
  apply (blob_dimentions_shape Examples.fb_hires Examples.fa_hires 1 1 1048576);
    [ reflexivity | reflexivity | lia | lia ].
Defined.

Example init_hires :
  __init__ "blc00_guppi.gpuspec.0000.fil"
           (Examples.heavy_container (Examples.header_hires 32) 16 1048576)
  = Ok Examples.fb_hires.
Proof. vm_compute. reflexivity. Qed.

(** C5, counterexample: the high-frequency-resolution product with 2^20
    channels and 32-bit samples gets the blob (256, 1, 1048576), which is
    1 GiB of samples. *)
Lemma blob_exceeds_ceiling :
  __get_blob_dimentions Examples.fb_hires (__get_chunk_dimentions Examples.fb_hires)
  = Ok (256, 1, 1048576) ∧
  blob_bytes (256, 1, 1048576) 32 = 1024 * MiB ∧
  ¬ Claimed.blob_within_ceiling Examples.fb_hires 32.
Proof.
  split; [ reflexivity | ]. split; [ reflexivity | ].
  intros H. specialize (H (256, 1, 1048576) eq_refl).
  vm_compute in H. apply H. reflexivity.
Qed.

(** C5, as amended: for every chunk tuple the chunk planner produces and
    every file with a positive channel count and 8, 16 or 32 bits a
    sample, the blob holds at most 256 Mi samples, so its size is at most
    256 MiB times the sample width in bytes; it stays within 256 MiB for
    8-bit samples. *)
Theorem blob_sample_budget (self : Filterbank) (fa : FileAttrs) (ct cb cf nbits : Z) :
  file_attrs self = Some fa →
  0 < n_channels_in_file fa →
  __get_chunk_dimentions self = H5.ChunkTuple ct cb cf →
  nbits = 8 ∨ nbits = 16 ∨ nbits = 32 →
  ∃ t f,
    __get_blob_dimentions self (__get_chunk_dimentions self) = Ok (t, 1, f) ∧
    t * 1 * f ≤ MAX_BLOB_MB * MiB ∧
    blob_bytes (t, 1, f) nbits ≤ MAX_BLOB_MB * MiB * (nbits / 8) ∧
    (nbits = 8 → blob_bytes (t, 1, f) nbits ≤ MAX_BLOB_MB * MiB).
Proof.
  intros Hfa Hn Hchunk Hbits. rewrite Hchunk.
  assert (Hpre : 0 < cf ∧ 0 ≤ ct ∧ ct * MAX_BLOB_MB * cf ≤ MAX_BLOB_MB * MiB).
  { unfold __get_chunk_dimentions in Hchunk.
    repeat match type of Hchunk with
           | (if ?b then _ else _) = _ => destruct b
           end;
      inversion Hchunk; subst; unfold MAX_BLOB_MB, MiB; lia. }
  destruct Hpre as (Hcf & Hct & Hle).
  rewrite (get_blob_dimentions_tuple self fa ct cb cf Hfa Hn Hcf).
  eexists _, _. split; [ reflexivity | ].
  set (fe := Z.min (n_channels_in_file fa) (cf * MAX_BLOB_MB)) in *.
  assert (Hfe : 0 < fe) by (unfold fe, MAX_BLOB_MB; lia).
  assert (Hprod : (ct * MAX_BLOB_MB * cf) / fe * 1 * fe ≤ MAX_BLOB_MB * MiB).
  { pose proof (Z.mul_div_le (ct * MAX_BLOB_MB * cf) fe Hfe). lia. }
  split; [ exact Hprod | ].
  unfold blob_bytes.
  split.
  - apply Z.mul_le_mono_nonneg_r; [ | exact Hprod ].
    destruct Hbits as [ -> | [ -> | -> ] ]; vm_compute; discriminate.
  - intros ->. change (8 / 8) with 1. lia.
Qed.

Lemma blob_sample_budget_witness :
  ∃ t f,
    __get_blob_dimentions Examples.fb_hires (__get_chunk_dimentions Examples.fb_hires)
    = Ok (t, 1, f) ∧
    t * 1 * f ≤ MAX_BLOB_MB * MiB ∧
    blob_bytes (t, 1, f) 32 ≤ MAX_BLOB_MB * MiB * (32 / 8) ∧
    (32 = 8 → blob_bytes (t, 1, f) 32 ≤ MAX_BLOB_MB * MiB).
Proof.
  apply (blob_sample_budget Examples.fb_hires Examples.fa_hires 1 1 1048576 32);
    [ reflexivity | reflexivity | reflexivity | right; right; reflexivity ].
Defined.

(** ** Frequency axis *)

Lemma StronglySorted_rev {A : Type} (R : relation A) (l : list A) :
  StronglySorted (flip R) l → StronglySorted R (rev l).
Proof.
  induction 1 as [ | a l Hl IH Ha ]; cbn; [ constructor | ].
  apply StronglySorted_app_2; [ | exact IH | repeat constructor ].
  intros x1 x2 Hx1 Hx2. apply list_elem_of_singleton in Hx2 as ->.
  rewrite Forall_forall in Ha. apply Ha.
  apply list_elem_of_In. apply list_elem_of_In in Hx1. now apply in_rev.
Qed.

Lemma seqZ_StronglySorted (len : nat) (a : Z) :
  StronglySorted Z.lt (seqZ a (Z.of_nat len)).
Proof.
  revert a. induction len as [ | len IH ]; intros a.
  - rewrite seqZ_nil by lia. constructor.
  - rewrite seqZ_cons by lia. constructor.
    + replace (Z.pred (Z.of_nat (S len))) with (Z.of_nat len) by lia. apply IH.
    + apply Forall_seqZ. lia.
Qed.

Lemma arange_StronglySorted (a b : Z) : StronglySorted Z.lt (Np.arange a b).
Proof.
  unfold Np.arange. destruct (Z_le_gt_dec (b - a) 0) as [ Hle | Hgt ].
  - rewrite seqZ_nil by lia. constructor.
  - rewrite <- (Z2Nat.id (b - a)) by lia. apply seqZ_StronglySorted.
Qed.

Lemma Qltb_lt (a b : Q) : Py.Qltb a b = true ↔ (a < b)%Q.
Proof.
  unfold Py.Qltb. rewrite Qlt_alt. destruct (a ?= b)%Q; split; congruence.
Qed.

Lemma Qltb_irrefl (a : Q) : Py.Qltb a a = false.
Proof.
  destruct (Py.Qltb a a) eqn:E; [ | reflexivity ].
  apply Qltb_lt in E. exfalso. exact (Qlt_irrefl a E).
Qed.

Lemma np_int_inject_Z (z : Z) : Np.int (inject_Z z) = z.
Proof. unfold Np.int. cbn. apply Z.quot_1_r. Qed.

(** The axis computed from a negative channel spacing is ascending,
    whatever integers the [arange] call receives. *)
Lemma descending_axis_reversed (foff fch1 : Q) (a b : Z) :
  (foff < 0)%Q →
  StronglySorted Qlt
    (rev (map (fun i => foff * inject_Z i + fch1)%Q (Np.arange a b))).
Proof.
  intros Hneg. apply StronglySorted_rev.
  apply (StronglySorted_fmap _ Z.lt); [ | apply arange_StronglySorted ].
  intros x y Hxy. unfold flip.
  apply Qplus_lt_l. apply Qlt_minus_iff.
  assert (E : (foff * inject_Z x + - (foff * inject_Z y)
               == (- foff) * (inject_Z y - inject_Z x))%Q) by ring.
  rewrite E. apply Qmult_lt_0_compat.
  - apply (Qopp_lt_compat foff 0) in Hneg. exact Hneg.
  - unfold Qminus. apply (proj1 (Qlt_minus_iff _ _)).
    rewrite <- Zlt_Qlt. exact Hxy.
Qed.

Lemma getitem_Some (h : gmap string value) (key : string) (v : value) :
  h !! key = Some v → getitem h key = Ok v.
Proof. intros E. unfold getitem. now rewrite E. Qed.

(** C2: with a negative channel spacing and no selection bounds, the
    frequency axis set up from the header is strictly ascending, has one
    value per channel, and starts at the minimum of fch1 and
    fch1 + foff * (nchans - 1). *)
Theorem setup_freqs_negative_foff_ascending
    (self : Filterbank) (fch1 foff : Q) (nchans : Z) :
  header self !! "fch1" = Some (VFloat fch1) →
  header self !! "foff" = Some (VFloat foff) →
  header self !! "nchans" = Some (VInt nchans) →
  (foff < 0)%Q → 0 < nchans →
  ∃ self' ret,
    _setup_freqs self None None = Ok (self', ret) ∧
    StronglySorted Qlt (freqs self') ∧
    Z.of_nat (length (freqs self')) = nchans ∧
    ∃ first, head (freqs self') = Some first ∧
             (first == Qmin fch1 (fch1 + foff * inject_Z (nchans - 1)))%Q.
Proof.
  intros H1 H2 H3 Hneg Hn.
  unfold _setup_freqs.
  rewrite (getitem_Some _ _ _ H1), (getitem_Some _ _ _ H2), (getitem_Some _ _ _ H3).
  cbn [mbind result_bind number Py.truthy].
  assert (Hlt : Py.Qltb 0 (inject_Z nchans) = true).
  { apply Qltb_lt. rewrite (Zlt_Qlt 0 nchans) in Hn. exact Hn. }
  rewrite Hlt. apply Qltb_lt in Hneg as Hneg'. rewrite Hneg'.
  rewrite np_int_inject_Z. change (Np.int 0) with 0.
  eexists _, _. split; [ reflexivity | ]. cbn [freqs set_freqs].
  split; [ now apply descending_axis_reversed | ].
  split.
  { rewrite length_rev, length_map. unfold Np.arange. rewrite length_seqZ. lia. }
  unfold Np.arange.
  replace (nchans - 0) with ((nchans - 1) + 1) by lia.
  rewrite seqZ_app by lia. rewrite map_app, rev_app_distr.
  rewrite (seqZ_cons _ 1) by lia. rewrite seqZ_nil by lia.
  cbn [map rev app head].
  eexists. split; [ reflexivity | ].
  rewrite Q.min_r; [ rewrite Z.add_0_l; ring | ].
  rewrite <- (Qplus_0_r fch1) at 2. apply Qplus_le_r.
  apply Qle_minus_iff.
  assert (E : (0 + - (foff * inject_Z (nchans - 1))
               == (- foff) * inject_Z (nchans - 1))%Q) by ring.
  rewrite E. apply Qmult_le_0_compat.
  - apply Qlt_le_weak. apply (Qopp_lt_compat foff 0). exact Hneg.
  - change 0%Q with (inject_Z 0). rewrite <- Zle_Qle. lia.
Qed.

Lemma setup_freqs_negative_foff_ascending_witness :
  ∃ self' ret,
    _setup_freqs Examples.fb_1420_raw None None = Ok (self', ret) ∧
    StronglySorted Qlt (freqs self') ∧
    Z.of_nat (length (freqs self')) = 4 ∧
    ∃ first, head (freqs self') = Some first ∧
             (first == Qmin 1420.0 (1420.0 + (-0.5) * inject_Z (4 - 1)))%Q.
Proof.
  apply (setup_freqs_negative_foff_ascending Examples.fb_1420_raw 1420.0 (-0.5) 4);
    [ reflexivity | reflexivity | reflexivity | reflexivity | lia ].
Defined.

(** C9: for the header {fch1: 1420.0, foff: -0.5, nchans: 4} the axis
    without bounds is [1418.5, 1419.0, 1419.5, 1420.0]; with
    f_start = 1419.0 and f_stop = 1420.0 the axis is generated over the
    file-order index range (0, 2), from the returned pair
    chan_start_idx = 2, chan_stop_idx = 0. *)
Theorem setup_freqs_example_1420 :
  (∃ self' ret,
     _setup_freqs Examples.fb_1420_raw None None = Ok (self', ret) ∧
     Forall2 Qeq (freqs self') [1418.5; 1419.0; 1419.5; 1420.0]%Q) ∧
  (∃ self' i_start i_stop,
     _setup_freqs Examples.fb_1420_raw (Some 1419.0%Q) (Some 1420.0%Q)
     = Ok (self', (i_start, i_stop, 2, 0)) ∧
     i_vals_bounds (i_start, i_stop, 2, 0) = (0, 2) ∧
     Forall2 Qeq (freqs self') [1419.5; 1420.0]%Q).
Proof.
  split.
  - eexists _, _. split; [ vm_compute; reflexivity | ].
    cbn [freqs]. repeat constructor.
  - eexists _, _, _. split; [ vm_compute; reflexivity | ].
    split; [ reflexivity | ].
    cbn [freqs]. repeat constructor.
Qed.

(** C6, as amended: when both selection bounds are given and equal (and not
    zero), frequency-axis set-up returns normally with a zero-length
    frequency axis and equal start and stop indices. *)
Theorem setup_freqs_equal_bounds_empty
    (self : Filterbank) (fch1 foff f : Q) (nchans : value) :
  header self !! "fch1" = Some (VFloat fch1) →
  header self !! "foff" = Some (VFloat foff) →
  header self !! "nchans" = Some nchans →
  ¬ (foff == 0)%Q → ¬ (f == 0)%Q →
  ∃ self' i k,
    _setup_freqs self (Some f) (Some f) = Ok (self', (i, i, k, k)) ∧
    freqs self' = [].
Proof.
  intros H1 H2 H3 Hfoff Hf.
  unfold _setup_freqs.
  rewrite (getitem_Some _ _ _ H1), (getitem_Some _ _ _ H2), (getitem_Some _ _ _ H3).
  cbn [mbind result_bind number Py.truthy].
  assert (Ef : Qeq_bool f 0 = false).
  { destruct (Qeq_bool f 0) eqn:E; [ | reflexivity ].
    apply Qeq_bool_eq in E. contradiction. }
  assert (Eo : Qeq_bool foff 0 = false).
  { destruct (Qeq_bool foff 0) eqn:E; [ | reflexivity ].
    apply Qeq_bool_eq in E. contradiction. }
  rewrite Ef. unfold Py.true_div. rewrite Eo. cbn [mbind result_bind].
  rewrite Qltb_irrefl.
  eexists _, _, _. split; [ reflexivity | ].
  cbn [freqs set_freqs]. unfold Np.arange. rewrite Z.sub_diag.
  rewrite seqZ_nil by lia. cbn. now destruct (Py.Qltb foff 0).
Qed.

Lemma setup_freqs_equal_bounds_empty_witness :
  ∃ self' i k,
    _setup_freqs Examples.fb_1420_raw (Some 1419.0%Q) (Some 1419.0%Q)
    = Ok (self', (i, i, k, k)) ∧
    freqs self' = [].
Proof.
  apply (setup_freqs_equal_bounds_empty Examples.fb_1420_raw 1420.0 (-0.5) 1419.0 (VInt 4));
    [ reflexivity | reflexivity | reflexivity | discriminate | discriminate ].
Defined.

(** C6, counterexample: for the header {fch1: 1420.0, foff: -0.5,
    nchans: 4} and f_start = f_stop = 1419.0 no error is signalled; the
    call returns a zero-length axis. *)
Lemma setup_freqs_equal_bounds_not_rejected :
  ¬ Claimed.equal_bounds_rejected Examples.fb_1420_raw 1419.0 ∧
  ∃ self' ret,
    _setup_freqs Examples.fb_1420_raw (Some 1419.0%Q) (Some 1419.0%Q)
    = Ok (self', ret) ∧ length (freqs self') = 0%nat.
Proof.
  split.
  - intros [e He]. vm_compute in He. discriminate He.
  - eexists _, _. split; [ vm_compute; reflexivity | reflexivity ].
Qed.

(** ** DC blanking *)

(** [Np.sort] returns its input in ascending order. *)
Lemma insert_sorted_perm (x : Q) (l : list Q) : Np.insert_sorted x l ≡ₚ x :: l.
Proof.
  induction l as [ | y l IH ]; cbn; [ reflexivity | ].
  destruct (Qle_bool x y); [ reflexivity | ].
  rewrite IH. apply Permutation_swap.
Qed.

Lemma sort_perm (l : list Q) : Np.sort l ≡ₚ l.
Proof.
  induction l as [ | x l IH ]; cbn; [ reflexivity | ].
  rewrite insert_sorted_perm. now rewrite IH.
Qed.

Lemma insert_sorted_sorted (x : Q) (l : list Q) :
  Sorted Qle l → Sorted Qle (Np.insert_sorted x l).
Proof.
  induction 1 as [ | y l Hl IH Hy ]; cbn; [ repeat constructor | ].
  destruct (Qle_bool x y) eqn:E.
  - apply Qle_bool_iff in E. repeat constructor; assumption.
  - assert (Hyx : (y <= x)%Q).
    { destruct (Qlt_le_dec y x) as [ Hlt | Hle ]; [ now apply Qlt_le_weak | ].
      apply Qle_bool_iff in Hle. congruence. }
    constructor; [ exact IH | ].
    destruct l as [ | z l ]; cbn; [ now constructor | ].
    destruct (Qle_bool x z); constructor; [ exact Hyx | ].
    now inversion Hy.
Qed.

Lemma sort_sorted (l : list Q) : Sorted Qle (Np.sort l).
Proof.
  induction l as [ | x l IH ]; cbn; [ constructor | ].
  now apply insert_sorted_sorted.
Qed.

Lemma py_index_in_range (len i : Z) :
  0 ≤ i < len → Py.index len i = Ok (Z.to_nat i).
Proof.
  intros [H0 H1]. unfold Py.index.
  destruct (Z.ltb_spec i 0); [ lia | ].
  destruct (Z.leb_spec 0 i); [ | lia ].
  destruct (Z.ltb_spec i len); [ reflexivity | lia ].
Qed.

Lemma clamp_bound_nonneg (len b : Z) : 0 ≤ b → Py.clamp_bound len b = Z.min b len.
Proof. intros H. unfold Py.clamp_bound. destruct (Z.ltb_spec b 0); [ lia | reflexivity ]. Qed.

(** A slice with non-negative bounds keeps what lies between them. *)
Lemma py_slice_nonneg {A : Type} (l : list A) (a b : Z) :
  0 ≤ a ≤ b →
  Py.slice l a b = take (Z.to_nat (b - a)) (drop (Z.to_nat a) l).
Proof.
  intros [Ha Hb]. unfold Py.slice, Py.slice_indices.
  rewrite !clamp_bound_nonneg by lia.
  destruct (Z_le_gt_dec (Z.of_nat (length l)) a) as [ Hge | Hlt ].
  - rewrite !drop_ge by lia. now rewrite !take_nil.
  - rewrite (Z.min_l a) by lia.
    destruct (Z_le_gt_dec b (Z.of_nat (length l))) as [ Hb' | Hb' ].
    + rewrite Z.min_l by lia. reflexivity.
    + rewrite Z.min_r by lia.
      rewrite !take_ge; [ reflexivity | | ]; rewrite length_drop; lia.
Qed.

Lemma apply_updates_length (ups : list (nat * Q)) (row : list Q) :
  length (apply_updates ups row) = length row.
Proof.
  unfold apply_updates. revert row.
  induction ups as [ | kv ups IH ]; intros row; cbn; [ reflexivity | ].
  rewrite IH. apply length_insert.
Qed.

Lemma apply_updates_drop (ups : list (nat * Q)) (row : list Q) (n : nat) :
  Forall (fun kv => (kv.1 < n)%nat) ups →
  drop n (apply_updates ups row) = drop n row.
Proof.
  unfold apply_updates. revert row.
  induction ups as [ | kv ups IH ]; intros row Hk; cbn; [ reflexivity | ].
  inversion Hk as [ | ? ? Hkv Hrest ]; subst.
  rewrite IH by assumption. now apply drop_insert_lt.
Qed.

Lemma apply_updates_lookup_ne (ups : list (nat * Q)) (row : list Q) (j : nat) :
  Forall (fun kv => kv.1 ≠ j) ups →
  apply_updates ups row !! j = row !! j.
Proof.
  unfold apply_updates. revert row.
  induction ups as [ | kv ups IH ]; intros row Hk; cbn; [ reflexivity | ].
  inversion Hk as [ | ? ? Hkv Hrest ]; subst.
  rewrite IH by assumption. now apply list_lookup_insert_ne.
Qed.

Lemma apply_updates_snoc (ups : list (nat * Q)) (kv : nat * Q) (row : list Q) :
  apply_updates (ups ++ [kv]) row = <[kv.1 := kv.2]> (apply_updates ups row).
Proof. unfold apply_updates. now rewrite foldl_snoc. Qed.

(** Rows updated only below [a] show the same window from [a] on. *)
Lemma chan_slice_apply_updates (ups : list (nat * Q)) (a b : Z)
    (it : list (list (list Q))) :
  0 ≤ a ≤ b →
  Forall (fun kv => Z.of_nat kv.1 < a) ups →
  Np.chan_slice a b (map (map (apply_updates ups)) it) = Np.chan_slice a b it.
Proof.
  intros Hab Hk. unfold Np.chan_slice.
  rewrite map_map. apply map_ext. intros plane.
  rewrite map_map. apply map_ext. intros row.
  rewrite !py_slice_nonneg by assumption.
  rewrite apply_updates_drop; [ reflexivity | ].
  eapply Forall_impl; [ exact Hk | ]. cbn. intros kv Hkv. lia.
Qed.

Lemma dc_index_mono (per s k : Z) : 0 ≤ per → 0 ≤ k → dc_index per s ≤ dc_index per (s + k).
Proof. intros Hp Hk. unfold dc_index. nia. Qed.

(** The loop of [blank_dc], band by band: every window lies above the
    channels stored so far, so each median is the one of the array as it
    was before the call. *)
Lemma blank_dc_loop_explicit (n per : Z) (it0 : list (list (list Q))) :
  0 ≤ per →
  ∀ (len : nat) (s : Z) (done : list (nat * Q)),
    0 ≤ dc_index per s →
    (len ≠ 0%nat → dc_index per (s + Z.of_nat len - 1) < n) →
    Forall (fun kv => Z.of_nat kv.1 ≤ dc_index per s) done →
    blank_dc_loop n per (per / 2 - 1) (seqZ s (Z.of_nat len))
      (map (map (apply_updates done)) it0)
    = Ok (map (map (apply_updates
                      (done ++ dc_updates per it0 (seqZ s (Z.of_nat len)))))
              it0).
Proof.
  intros Hper. induction len as [ | len IH ]; intros s done Hlo Hhi Hdone.
  - rewrite seqZ_nil by lia. cbn. now rewrite app_nil_r.
  - rewrite seqZ_cons by lia.
    replace (Z.pred (Z.of_nat (S len))) with (Z.of_nat len) by lia.
    cbn [blank_dc_loop dc_updates map]. unfold blank_dc_step.
    change (s * per + (per / 2 - 1)) with (dc_index per s).
    assert (Hs : dc_index per s < n).
    { pose proof (dc_index_mono per s (Z.of_nat (S len) - 1) Hper ltac:(lia)) as Hm.
      replace (s + (Z.of_nat (S len) - 1)) with (s + Z.of_nat (S len) - 1) in Hm by lia.
      specialize (Hhi ltac:(lia)). lia. }
    rewrite py_index_in_range by lia. cbn [mbind result_bind].
    rewrite chan_slice_apply_updates; cycle 1.
    { lia. }
    { eapply Forall_impl; [ exact Hdone | ]. cbn. intros kv Hkv. lia. }
    set (v := Np.median _).
    assert (Estep :
      Np.set_chan (Z.to_nat (dc_index per s)) v (map (map (apply_updates done)) it0)
      = map (map (apply_updates (done ++ [(Z.to_nat (dc_index per s), v)]))) it0).
    { unfold Np.set_chan. rewrite map_map. apply map_ext. intros plane.
      rewrite map_map. apply map_ext. intros row.
      now rewrite apply_updates_snoc. }
    rewrite Estep. rewrite IH.
    + now rewrite <- app_assoc.
    + pose proof (dc_index_mono per s 1 Hper ltac:(lia)). unfold Z.succ. lia.
    + intros Hlen. specialize (Hhi ltac:(lia)).
      replace (Z.succ s + Z.of_nat len - 1) with (s + Z.of_nat (S len) - 1) by lia.
      exact Hhi.
    + pose proof (dc_index_mono per s 1 Hper ltac:(lia)) as Hm.
      apply Forall_app. split.
      * eapply Forall_impl; [ exact Hdone | ]. cbn. intros kv Hkv.
        unfold Z.succ. lia.
      * repeat constructor. cbn. unfold Z.succ. lia.
Qed.

(** [blank_dc] in closed form, when every band has at least two channels. *)
Lemma blank_dc_explicit (self : Filterbank) (n_coarse_chan : Z) :
  let n_chan := (Np.shape (data self)).2 in
  0 < n_coarse_chan → 2 ≤ n_chan / n_coarse_chan →
  blank_dc self n_coarse_chan
  = Ok (set_data self
          {| Np.shape := Np.shape (data self);
             Np.items :=
               map (map (apply_updates
                           (dc_updates (n_chan / n_coarse_chan)
                              (Np.items (data self)) (Py.range n_coarse_chan))))
                   (Np.items (data self)) |}).
Proof.
  intros n_chan Hc Hper. unfold blank_dc. fold n_chan.
  rewrite py_div_pos by lia. cbn [mbind result_bind].
  set (per := n_chan / n_coarse_chan) in *.
  assert (Hid : Np.items (data self)
                = map (map (apply_updates [])) (Np.items (data self))).
  { symmetry. erewrite map_ext; [ apply map_id | ].
    intros plane. apply map_id. }
  rewrite Hid at 1. unfold Py.range.
  rewrite <- (Z2Nat.id n_coarse_chan) by lia.
  pose proof (Z.mul_div_le n_chan n_coarse_chan Hc) as Hmul. fold per in Hmul.
  pose proof (Z.div_pos per 2 ltac:(lia) ltac:(lia)) as Hhalf0.
  assert (Hhalf1 : 1 ≤ per / 2) by (apply Z.div_le_lower_bound; lia).
  assert (Hhalf2 : per / 2 < per) by (apply Z.div_lt; lia).
  rewrite blank_dc_loop_explicit.
  - reflexivity.
  - lia.
  - unfold dc_index. lia.
  - intros _. unfold dc_index. rewrite Z2Nat.id by lia. nia.
  - constructor.
Qed.

Lemma lookup_map {A B : Type} (f : A → B) (l : list A) (i : nat) :
  map f l !! i = f <$> (l !! i).
Proof.
  revert i. induction l as [ | x l IH ]; intros [ | i ]; cbn; auto.
Qed.

Lemma item_map_rows (f : list Q → list Q) (sh : Z * Z * Z)
    (it : list (list (list Q))) (t b j : nat) :
  (∀ row, f row !! j = row !! j) →
  Np.item {| Np.shape := sh; Np.items := map (map f) it |} t b j
  = Np.item {| Np.shape := sh; Np.items := it |} t b j.
Proof.
  intros Hf. unfold Np.item. cbn [Np.items].
  rewrite lookup_map. destruct (it !! t) as [ plane | ]; cbn; [ | reflexivity ].
  rewrite lookup_map. destruct (plane !! b) as [ row | ]; cbn; [ | reflexivity ].
  apply Hf.
Qed.


(** Channels that are no DC channel are not among the stored pairs. *)
Lemma dc_updates_miss (per c : Z) (it : list (list (list Q))) (j : nat) :
  0 ≤ per / 2 - 1 → 0 ≤ per →
  (∀ ii, 0 ≤ ii < c → Z.of_nat j ≠ dc_index per ii) →
  Forall (fun kv => kv.1 ≠ j) (dc_updates per it (Py.range c)).
Proof.
  intros Hmid Hper Hj. unfold dc_updates, Py.range.
  apply Forall_map. apply Forall_seqZ. intros ii Hii. cbn.
  specialize (Hj ii ltac:(lia)).
  assert (0 ≤ dc_index per ii) by (unfold dc_index; nia).
  lia.
Qed.






Example blank_dc_8chan :
  ∃ self', blank_dc Examples.fb_8chan 2 = Ok self' ∧
    Forall2 (Forall2 (Forall2 Qeq)) (Np.items (data self'))
            [[[1; 5.5; 3; 4; 5; 7.5; 7; 8]]]%Q.
Proof.
  eexists. split; [ vm_compute; reflexivity | ].
  cbn [data Np.items]. repeat constructor.
Qed.

(** With twenty-four channels in one band the DC channel is 11 and the
    nine channels 12..20 follow it; their median is 20. *)
Example blank_dc_24chan :
  ∃ self', blank_dc Examples.fb_24chan 1 = Ok self' ∧
    Np.following 11 9 (Np.items (data Examples.fb_24chan))
    = [[[24; 23; 22; 21; 20; 19; 18; 17; 16]]]%Q ∧
    Np.item (data self') 0 0 11 = Some 20%Q.
Proof.
  eexists. split; [ vm_compute; reflexivity | ].
  split; reflexivity.
Qed.


Lemma wf_map_rows (f : list Q → list Q) (sh : Z * Z * Z) (it : list (list (list Q))) :
  (∀ row, length (f row) = length row) →
  Np.wf {| Np.shape := sh; Np.items := it |} →
  Np.wf {| Np.shape := sh; Np.items := map (map f) it |}.
Proof.
  intros Hf. unfold Np.wf. cbn. destruct sh as [ [ T B ] F ].
  intros [HT Hplanes]. split; [ now rewrite length_map | ].
  apply Forall_map. eapply Forall_impl; [ exact Hplanes | ].
  cbn. intros plane [HB Hrows]. split; [ now rewrite length_map | ].
  apply Forall_map. eapply Forall_impl; [ exact Hrows | ].
  cbn. intros row Hrow. now rewrite Hf.
Qed.

(** The frame of [blank_dc] when every band has at least two channels
    (n_chan / n_coarse_chan >= 2): every channel whose index is not
    ii * (n_chan / n_coarse_chan) + (n_chan / n_coarse_chan) / 2 - 1 for
    some band ii keeps its value, and the shape of the array is
    unchanged. *)
Theorem blank_dc_frame (self : Filterbank) (n_coarse_chan : Z) :
  let n_chan := (Np.shape (data self)).2 in
  let per := n_chan / n_coarse_chan in
  0 < n_coarse_chan → 2 ≤ per →
  ∃ self', blank_dc self n_coarse_chan = Ok self' ∧
    Np.shape (data self') = Np.shape (data self) ∧
    (Np.wf (data self) → Np.wf (data self')) ∧
    ∀ t b j,
      (∀ ii, 0 ≤ ii < n_coarse_chan → Z.of_nat j ≠ ii * per + per / 2 - 1) →
      Np.item (data self') t b j = Np.item (data self) t b j.
Proof.
  intros n_chan per Hc Hper.
  eexists. split; [ apply blank_dc_explicit; assumption | ].
  fold n_chan. fold per. cbn [data set_data Np.shape].
  assert (Hhalf1 : 1 ≤ per / 2) by (apply Z.div_le_lower_bound; lia).
  split; [ reflexivity | ].
  destruct (data self) as [ sh it ] eqn:Ed. cbn [Np.items Np.shape] in *.
  split.
  - apply wf_map_rows. intros row. apply apply_updates_length.
  - intros t b j Hj. apply item_map_rows. intros row.
    apply apply_updates_lookup_ne.
    apply dc_updates_miss; [ lia | lia | ].
    intros ii Hii. specialize (Hj ii Hii). unfold dc_index. lia.
Qed.

Lemma blank_dc_frame_witness :
  ∃ self', blank_dc Examples.fb_8chan 2 = Ok self' ∧
    Np.shape (data self') = Np.shape (data Examples.fb_8chan) ∧
    (Np.wf (data Examples.fb_8chan) → Np.wf (data self')) ∧
    ∀ t b j,
      (∀ ii, 0 ≤ ii < 2 → Z.of_nat j ≠ ii * (8 / 2) + (8 / 2) / 2 - 1) →
      Np.item (data self') t b j = Np.item (data Examples.fb_8chan) t b j.
Proof.
  apply (blank_dc_frame Examples.fb_8chan 2); [ lia | vm_compute; discriminate ].
Defined.

(** C10, on the code: with two channels in two bands each band has one
    channel and the index of band 0 is -1, which numpy reads as the last
    channel; channel 1 is none of the indices -1 and 0 of the two bands,
    yet its value changes from 3 to 2. *)
Lemma blank_dc_wraps_to_last_channel :
  ¬ Claimed.only_dc_channels_modified Examples.fb_2chan 2 ∧
  ∃ self', blank_dc Examples.fb_2chan 2 = Ok self' ∧
    Np.item (data Examples.fb_2chan) 0 0 1 = Some 3%Q ∧
    Claimed.same_item (Np.item (data self') 0 0 1) (Some 2%Q).
Proof.
  split.
  - intros H. red in H.
    destruct (blank_dc Examples.fb_2chan 2) as [ self' | e ] eqn:E;
      [ | vm_compute in E; discriminate E ].
    destruct (H self' eq_refl) as [_ Hframe].
    specialize (Hframe 0%nat 0%nat 1%nat).
    vm_compute in E. injection E as <-.
    assert (Hne : ∀ ii, 0 ≤ ii < 2 →
              Z.of_nat 1 ≠ ii * (((Np.shape (data Examples.fb_2chan)).2) / 2)
                           + (((Np.shape (data Examples.fb_2chan)).2) / 2) / 2 - 1).
    { intros ii Hii. change ((Np.shape (data Examples.fb_2chan)).2) with 2.
      change (2 / 2) with 1. change (1 / 2) with 0. lia. }
    specialize (Hframe Hne). vm_compute in Hframe. discriminate Hframe.
  - eexists. split; [ vm_compute; reflexivity | ].
    split; reflexivity.
Qed.

(** ** The flat-format writer *)

Section FlatWriter.

Variable generate_sigproc_header : Filterbank → string.

(** [write_to_fil] on an object with at least two frequencies and an
    integer [nbits] field. *)
Lemma write_to_fil_explicit (self : Filterbank) (f0 f1 : Q) (nbits : Z) :
  freqs self !! 0%nat = Some f0 →
  freqs self !! 1%nat = Some f1 →
  header self !! "nbits" = Some (VInt nbits) →
  let h := <["nchans" := VInt (Z.of_nat (length (freqs self)))]>
             (<["foff" := VFloat (f1 - f0)]>
                (<["fch1" := VFloat f0]> (header self))) in
  let self' := set_header self h in
  let n_bytes := inject_Z (nbits / 8) in
  let out (d : Np.dtype) :=
    Some (d, map (Np.cast d) (Np.ravel (Np.rev_axis1 (Np.items (data self))))) in
  write_to_fil generate_sigproc_header self
  = Ok (self',
        {| fil_header := generate_sigproc_header self';
           fil_samples :=
             if Qeq_bool n_bytes 4 then out Np.float32
             else if Qeq_bool n_bytes 2 then out Np.int16
             else if Qeq_bool n_bytes 1 then out Np.int8
             else None |}).
Proof.
  intros Hf0 Hf1 Hbits. cbv zeta. unfold write_to_fil.
  rewrite Hf0, Hf1. cbn [from_option mbind result_bind].
  unfold getitem. cbn [header set_header].
  rewrite !lookup_insert_ne by discriminate. rewrite Hbits.
  cbn [mbind result_bind div_by]. reflexivity.
Qed.

End FlatWriter.

Lemma rev_axis1_single_beam (it : list (list (list Q))) :
  Forall (fun plane => length plane = 1%nat) it → Np.rev_axis1 it = it.
Proof.
  unfold Np.rev_axis1. induction 1 as [ | plane it Hp _ IH ]; cbn; [ reflexivity | ].
  rewrite IH. f_equal.
  destruct plane as [ | row [ | ] ]; cbn in Hp; try discriminate. reflexivity.
Qed.




(** ** The header under the operations *)

(** C8, as amended: [blank_dc], [read_data] and the chunked writer leave
    the header as it is (the chunked writer copies it into the attributes
    of the dataset); [write_to_fil] rewrites it: fch1, foff and nchans
    become freqs[0], freqs[1] - freqs[0] and the number of frequencies,
    every other field keeps its value. *)
Theorem header_rewritten_by_write_to_fil
    (generate_sigproc_header : Filterbank → string)
    (read_blob : Container → Z * Z * Z → Z → Np.ndarray)
    (calc_n_blobs : Container → Z * Z * Z → Z)
    (container_read_data :
       Container → option Q → option Q → option Z → option Z → Container)
    (h5_store : Np.ndarray → H5.selection → Np.ndarray → result Np.ndarray)
    (policy : H5.reverse_policy)
    (self : Filterbank) (f0 f1 : Q) (nbits : Z) :
  freqs self !! 0%nat = Some f0 →
  freqs self !! 1%nat = Some f1 →
  header self !! "nbits" = Some (VInt nbits) →
  (∃ self' out,
     write_to_fil generate_sigproc_header self = Ok (self', out) ∧
     header self' !! "fch1" = Some (VFloat f0) ∧
     header self' !! "foff" = Some (VFloat (f1 - f0)) ∧
     header self' !! "nchans" = Some (VInt (Z.of_nat (length (freqs self)))) ∧
     ∀ key, key ≠ "fch1" → key ≠ "foff" → key ≠ "nchans" →
            header self' !! key = header self !! key) ∧
  (∀ n_coarse_chan,
     match blank_dc self n_coarse_chan with
     | Ok self' => header self' = header self
     | Err _ => True
     end) ∧
  (∀ f_start f_stop t_start t_stop,
     match read_data container_read_data self f_start f_stop t_start t_stop with
     | Ok self' => header self' = header self
     | Err _ => True
     end) ∧
  match write_to_hdf5 read_blob calc_n_blobs h5_store policy self with
  | Ok f => H5.dset_attrs f = header self
  | Err _ => True
  end.
Proof.
  intros Hf0 Hf1 Hbits. split; [ | split; [ | split ] ].
  - rewrite (write_to_fil_explicit _ self f0 f1 nbits Hf0 Hf1 Hbits). cbv zeta.
    eexists _, _. split; [ reflexivity | ]. cbn [header set_header].
    split; [ | split; [ | split ] ].
    + rewrite !lookup_insert_ne by discriminate. apply lookup_insert_eq.
    + rewrite lookup_insert_ne by discriminate. apply lookup_insert_eq.
    + apply lookup_insert_eq.
    + intros key H1 H2 H3. now rewrite !lookup_insert_ne by congruence.
  - intros c. unfold blank_dc.
    destruct (py_div _ _) as [ per | ]; cbn [mbind result_bind]; [ | exact I ].
    destruct (blank_dc_loop _ _ _ _ _); cbn [mbind result_bind]; [ reflexivity | exact I ].
  - intros a b c d. unfold read_data, get_file_attrs.
    destruct (file_attrs self); cbn [mbind result_bind]; [ reflexivity | exact I ].
  - unfold write_to_hdf5, __write_to_hdf5_heavy, __write_to_hdf5_light, get_file_attrs.
    destruct (file_attrs self) as [ fa | ]; cbn [mbind result_bind]; [ | exact I ].
    destruct (heavy fa); cbn [mbind result_bind]; [ | reflexivity ].
    destruct (__get_blob_dimentions _ _) as [ blob_dim | ];
      cbn [mbind result_bind]; [ | exact I ].
    destruct (if _ <? _ then _ else _); cbn [mbind result_bind]; [ reflexivity | exact I ].
Qed.

Lemma header_rewritten_by_write_to_fil_witness :
  (∃ self' out,
     write_to_fil Examples.header_bytes Examples.fb_file = Ok (self', out) ∧
     header self' !! "fch1" = Some (VFloat 1418.50) ∧
     header self' !! "foff" = Some (VFloat (1419.00 - 1418.50)) ∧
     header self' !! "nchans"
     = Some (VInt (Z.of_nat (length (freqs Examples.fb_file)))) ∧
     ∀ key, key ≠ "fch1" → key ≠ "foff" → key ≠ "nchans" →
            header self' !! key = header Examples.fb_file !! key) ∧
  (∀ n_coarse_chan,
     match blank_dc Examples.fb_file n_coarse_chan with
     | Ok self' => header self' = header Examples.fb_file
     | Err _ => True
     end) ∧
  (∀ f_start f_stop t_start t_stop,
     match read_data Examples.same_container Examples.fb_file
             f_start f_stop t_start t_stop with
     | Ok self' => header self' = header Examples.fb_file
     | Err _ => True
     end) ∧
  match write_to_hdf5 Examples.blank_blob Examples.two_blobs
          Examples.store_nothing H5.EmptyReverse Examples.fb_file with
  | Ok f => H5.dset_attrs f = header Examples.fb_file
  | Err _ => True
  end.
Proof.
  apply (header_rewritten_by_write_to_fil Examples.header_bytes
           Examples.blank_blob Examples.two_blobs Examples.same_container
           Examples.store_nothing H5.EmptyReverse Examples.fb_file
           (1418.50)%Q (1419.00)%Q 32);
    reflexivity.
Defined.

(** C8, counterexample: an object opened from a file whose header has
    fch1 = 1420.0 and foff = -0.5 has, after [write_to_fil], a header with
    fch1 = 1418.5 and foff = 0.5; the same happens to an object built from
    a header dictionary. *)
Lemma write_to_fil_rewrites_header :
  (∃ self' out fch1 foff,
     write_to_fil Examples.header_bytes Examples.fb_file = Ok (self', out) ∧
     header Examples.fb_file !! "fch1" = Some (VFloat 1420.0) ∧
     header Examples.fb_file !! "foff" = Some (VFloat (-0.5)) ∧
     header self' !! "fch1" = Some (VFloat fch1) ∧ (fch1 == 1418.5)%Q ∧
     header self' !! "foff" = Some (VFloat foff) ∧ (foff == 0.5)%Q ∧
     ¬ Claimed.header_kept Examples.fb_file self') ∧
  (∃ self' out,
     write_to_fil Examples.header_bytes Examples.fb_1420 = Ok (self', out) ∧
     ¬ Claimed.header_kept Examples.fb_1420 self').
Proof.
  split.
  - eexists _, _, _, _. split; [ vm_compute; reflexivity | ].
    do 6 (split; [ reflexivity | ]).
    intros H. specialize (H "foff"). vm_compute in H. discriminate H.
  - eexists _, _. split; [ vm_compute; reflexivity | ].
    intros H. specialize (H "foff"). vm_compute in H. discriminate H.
Qed.

(** ** The chunked writer, blob by blob *)




Section ChunkedWriter.

Variable read_blob : Container → Z * Z * Z → Z → Np.ndarray.
Variable h5_store : Np.ndarray → H5.selection → Np.ndarray → result Np.ndarray.


End ChunkedWriter.

Example init_heavy :
  __init__ "blc00_guppi.gpuspec.0001.fil"
           (Examples.heavy_container (Examples.header_hires 32) 16 1048576)
  = Ok Examples.fb_heavy.
Proof. vm_compute. reflexivity. Qed.

(** With a positive channel spacing the two destinations run forward and
    tile the channel axis. *)
Example heavy_writer_positive_foff_selections :
  blob_selection Examples.fb_heavy_up Examples.fa_heavy (512, 1, 524288) 0
  = Ok (H5.SelBlock 0 524288 0 0 524288) ∧
  blob_selection Examples.fb_heavy_up Examples.fa_heavy (512, 1, 524288) 1
  = Ok (H5.SelBlock 0 524288 0 524288 1048576) ∧
  H5.reverse_order (16, 1, 1048576) (H5.SelBlock 0 524288 0 0 524288) = false ∧
  H5.reverse_order (16, 1, 1048576) (H5.SelBlock 0 524288 0 524288 1048576) = false.
Proof. repeat split; reflexivity. Qed.


(** * Further properties *)

(** ** The frequency axis in general *)

Lemma ascending_axis (foff fch1 : Q) (a b : Z) :
  (0 < foff)%Q →
  StronglySorted Qlt (map (fun i => foff * inject_Z i + fch1)%Q (Np.arange a b)).
Proof.
  intros Hpos.
  apply (StronglySorted_fmap _ Z.lt); [ | apply arange_StronglySorted ].
  intros x y Hxy. apply Qplus_lt_l. apply Qmult_lt_l; [ exact Hpos | ].
  rewrite <- Zlt_Qlt. exact Hxy.
Qed.

Lemma Qltb_ge (a b : Q) : Py.Qltb a b = false ↔ (b <= a)%Q.
Proof.
  split.
  - intros E. destruct (Qlt_le_dec a b) as [ Hlt | Hle ]; [ | exact Hle ].
    apply Qltb_lt in Hlt. congruence.
  - intros Hle. destruct (Py.Qltb a b) eqn:E; [ | reflexivity ].
    apply Qltb_lt in E. exfalso. exact (Qlt_not_le _ _ E Hle).
Qed.

Lemma Qeq_bool_false (a b : Q) : ¬ (a == b)%Q → Qeq_bool a b = false.
Proof.
  intros H. destruct (Qeq_bool a b) eqn:E; [ | reflexivity ].
  apply Qeq_bool_eq in E. contradiction.
Qed.

(** [np.int] truncates: it is the floor of a non-negative number and the
    ceiling of a negative one. *)
Lemma np_int_floor_ceiling (q : Q) :
  Np.int q = if 0 <=? Qnum q then Qfloor q else Qceiling q.
Proof.
  destruct q as [ n d ]. unfold Np.int, Qceiling, Qfloor. cbn [Qnum Qden Qopp].
  destruct (Z.leb_spec 0 n) as [ Hn | Hn ].
  - apply Z.quot_div_nonneg; lia.
  - rewrite <- (Z.opp_involutive n) at 1. rewrite Z.quot_opp_l by lia.
    rewrite Z.quot_div_nonneg by lia. reflexivity.
Qed.

Lemma np_int_mono (p q : Q) : (p <= q)%Q → Np.int p ≤ Np.int q.
Proof.
  intros Hle. rewrite !np_int_floor_ceiling.
  destruct (Z.leb_spec 0 (Qnum p)) as [ Hp | Hp ];
    destruct (Z.leb_spec 0 (Qnum q)) as [ Hq | Hq ].
  - now apply Qfloor_resp_le.
  - exfalso. unfold Qle in Hle. nia.
  - transitivity 0.
    + change 0 with (Qceiling 0). apply Qceiling_resp_le.
      unfold Qle. cbn. lia.
    + change 0 with (Qfloor 0). apply Qfloor_resp_le.
      unfold Qle. cbn. lia.
  - now apply Qceiling_resp_le.
Qed.

Lemma np_int_Qeq (p q : Q) : (p == q)%Q → Np.int p = Np.int q.
Proof.
  intros E. apply Z.le_antisymm; apply np_int_mono; rewrite E; apply Qle_refl.
Qed.


(** [_setup_freqs] on a header with float [fch1], a non-zero float [foff]
    and an integer [nchans]. *)
Lemma setup_freqs_returns (self : Filterbank) (fch1 foff : Q) (nchans : Z)
    (f_start f_stop : option Q) :
  header self !! "fch1" = Some (VFloat fch1) →
  header self !! "foff" = Some (VFloat foff) →
  header self !! "nchans" = Some (VInt nchans) →
  ¬ (foff == 0)%Q →
  let i_start := bound_position fch1 foff f_start 0 in
  let i_stop := bound_position fch1 foff f_stop (inject_Z nchans) in
  let fs := map (fun i => foff * inject_Z i + fch1)%Q
              (selected_channels i_start i_stop) in
  _setup_freqs self f_start f_stop
  = Ok (set_freqs self (if Py.Qltb foff 0 then rev fs else fs),
        (i_start, i_stop, Np.int i_start, Np.int i_stop)).
Proof.
  intros H1 H2 H3 Hfoff. cbv zeta. unfold _setup_freqs, bound_position.
  rewrite (getitem_Some _ _ _ H1), (getitem_Some _ _ _ H2), (getitem_Some _ _ _ H3).
  cbn [mbind result_bind number]. unfold Py.true_div.
  rewrite (Qeq_bool_false _ _ Hfoff).
  destruct (Py.truthy f_start), (Py.truthy f_stop);
    cbn [mbind result_bind number]; reflexivity.
Qed.

(** X1: whatever the selection bounds, the frequency axis set up from a
    header with a non-zero channel spacing is strictly ascending. *)
Theorem setup_freqs_always_ascending (self : Filterbank) (fch1 foff : Q)
    (nchans : Z) (f_start f_stop : option Q) :
  header self !! "fch1" = Some (VFloat fch1) →
  header self !! "foff" = Some (VFloat foff) →
  header self !! "nchans" = Some (VInt nchans) →
  ¬ (foff == 0)%Q →
  ∃ self' ret,
    _setup_freqs self f_start f_stop = Ok (self', ret) ∧
    StronglySorted Qlt (freqs self').
Proof.
  intros H1 H2 H3 Hfoff.
  rewrite (setup_freqs_returns self fch1 foff nchans f_start f_stop H1 H2 H3 Hfoff).
  cbv zeta. eexists _, _. split; [ reflexivity | ]. cbn [freqs set_freqs].
  unfold selected_channels.
  destruct (Py.Qltb foff 0) eqn:Eneg.
  - apply Qltb_lt in Eneg.
    destruct (Py.Qltb _ _); now apply descending_axis_reversed.
  - apply Qltb_ge in Eneg.
    assert (Hpos : (0 < foff)%Q).
    { apply Qle_lteq in Eneg. destruct Eneg as [ Hlt | Heq ]; [ exact Hlt | ].
      exfalso. apply Hfoff. now symmetry. }
    destruct (Py.Qltb _ _); now apply ascending_axis.
Qed.

Lemma setup_freqs_always_ascending_witness :
  ∃ self' ret,
    _setup_freqs Examples.fb_1420_raw (Some 1419.2%Q) (Some 1418.6%Q)
    = Ok (self', ret) ∧
    StronglySorted Qlt (freqs self').
Proof.
  apply (setup_freqs_always_ascending Examples.fb_1420_raw 1420.0 (-0.5) 4);
    [ reflexivity | reflexivity | reflexivity | discriminate ].
Defined.

(** X2: the number of frequencies on the axis is the distance between the
    two channel indices the call returns, in whichever order the bounds
    were given. *)
Theorem setup_freqs_axis_length (self : Filterbank) (fch1 foff : Q)
    (nchans : Z) (f_start f_stop : option Q) :
  header self !! "fch1" = Some (VFloat fch1) →
  header self !! "foff" = Some (VFloat foff) →
  header self !! "nchans" = Some (VInt nchans) →
  ¬ (foff == 0)%Q →
  ∃ self' i_start i_stop chan_start_idx chan_stop_idx,
    _setup_freqs self f_start f_stop
    = Ok (self', (i_start, i_stop, chan_start_idx, chan_stop_idx)) ∧
    Z.of_nat (length (freqs self')) = Z.abs (chan_stop_idx - chan_start_idx).
Proof.
  intros H1 H2 H3 Hfoff.
  rewrite (setup_freqs_returns self fch1 foff nchans f_start f_stop H1 H2 H3 Hfoff).
  cbv zeta. eexists _, _, _, _, _. split; [ reflexivity | ]. cbn [freqs set_freqs].
  set (i_start := bound_position fch1 foff f_start 0).
  set (i_stop := bound_position fch1 foff f_stop (inject_Z nchans)).
  assert (Hlen : ∀ l : list Q,
            length (if Py.Qltb foff 0 then rev l else l) = length l).
  { intros l. destruct (Py.Qltb foff 0); [ apply length_rev | reflexivity ]. }
  rewrite Hlen, length_map. unfold selected_channels, Np.arange.
  destruct (Py.Qltb i_start i_stop) eqn:E; rewrite length_seqZ.
  - apply Qltb_lt in E. apply Qlt_le_weak in E. apply np_int_mono in E. lia.
  - apply Qltb_ge in E. apply np_int_mono in E. lia.
Qed.

Lemma setup_freqs_axis_length_witness :
  ∃ self' i_start i_stop chan_start_idx chan_stop_idx,
    _setup_freqs Examples.fb_1420_raw (Some 1419.2%Q) (Some 1418.6%Q)
    = Ok (self', (i_start, i_stop, chan_start_idx, chan_stop_idx)) ∧
    Z.of_nat (length (freqs self')) = Z.abs (chan_stop_idx - chan_start_idx).
Proof.
  apply (setup_freqs_axis_length Examples.fb_1420_raw 1420.0 (-0.5) 4);
    [ reflexivity | reflexivity | reflexivity | discriminate ].
Defined.

(** X3: the frequency axis does not depend on the order of the two
    selection bounds: swapping f_start and f_stop gives the same axis. *)
Theorem setup_freqs_bounds_symmetric (self : Filterbank) (fch1 foff : Q)
    (nchans : Z) (f_a f_b : option Q) :
  header self !! "fch1" = Some (VFloat fch1) →
  header self !! "foff" = Some (VFloat foff) →
  header self !! "nchans" = Some (VInt nchans) →
  ¬ (foff == 0)%Q →
  is_Some (Py.truthy f_a) → is_Some (Py.truthy f_b) →
  ∃ self1 ret1 self2 ret2,
    _setup_freqs self f_a f_b = Ok (self1, ret1) ∧
    _setup_freqs self f_b f_a = Ok (self2, ret2) ∧
    freqs self1 = freqs self2.
Proof.
  intros H1 H2 H3 Hfoff [ a Ha ] [ b Hb ].
  rewrite (setup_freqs_returns self fch1 foff nchans f_a f_b H1 H2 H3 Hfoff).
  rewrite (setup_freqs_returns self fch1 foff nchans f_b f_a H1 H2 H3 Hfoff).
  cbv zeta. eexists _, _, _, _. split; [ reflexivity | ]. split; [ reflexivity | ].
  cbn [freqs set_freqs]. unfold bound_position. rewrite Ha, Hb.
  set (i_a := ((a - fch1) / foff)%Q). set (i_b := ((b - fch1) / foff)%Q).
  assert (E : selected_channels i_a i_b = selected_channels i_b i_a).
  { unfold selected_channels.
    destruct (Py.Qltb i_a i_b) eqn:Eab; destruct (Py.Qltb i_b i_a) eqn:Eba;
      try reflexivity.
    - apply Qltb_lt in Eab. apply Qltb_lt in Eba.
      exfalso. exact (Qlt_irrefl _ (Qlt_trans _ _ _ Eab Eba)).
    - apply Qltb_ge in Eab. apply Qltb_ge in Eba.
      rewrite (np_int_Qeq i_a i_b) by (now apply Qle_antisym). reflexivity. }
  now rewrite E.
Qed.

Lemma setup_freqs_bounds_symmetric_witness :
  ∃ self1 ret1 self2 ret2,
    _setup_freqs Examples.fb_1420_raw (Some 1419.2%Q) (Some 1418.6%Q)
    = Ok (self1, ret1) ∧
    _setup_freqs Examples.fb_1420_raw (Some 1418.6%Q) (Some 1419.2%Q)
    = Ok (self2, ret2) ∧
    freqs self1 = freqs self2.
Proof.
  apply (setup_freqs_bounds_symmetric Examples.fb_1420_raw 1420.0 (-0.5) 4);
    [ reflexivity | reflexivity | reflexivity | discriminate
    | eexists; reflexivity | eexists; reflexivity ].
Defined.

Lemma lookup_rev {A : Type} (l : list A) (i : nat) :
  (i < length l)%nat → rev l !! i = l !! (length l - S i)%nat.
Proof.
  intros Hi. rewrite rev_alt. now apply (reverse_lookup l i).
Qed.

(** X4: without selection bounds, entry i of the frequency axis is the
    frequency of file channel i when the channel spacing is not negative,
    and of file channel nchans - 1 - i when it is negative. *)
Theorem setup_freqs_channel_of_entry (self : Filterbank) (fch1 foff : Q)
    (nchans i : Z) :
  header self !! "fch1" = Some (VFloat fch1) →
  header self !! "foff" = Some (VFloat foff) →
  header self !! "nchans" = Some (VInt nchans) →
  0 ≤ i < nchans →
  ∃ self' ret,
    _setup_freqs self None None = Ok (self', ret) ∧
    Z.of_nat (length (freqs self')) = nchans ∧
    freqs self' !! Z.to_nat i
    = Some (foff * inject_Z (if Py.Qltb foff 0 then nchans - 1 - i else i)
            + fch1)%Q.
Proof.
  intros H1 H2 H3 Hi. unfold _setup_freqs.
  rewrite (getitem_Some _ _ _ H1), (getitem_Some _ _ _ H2), (getitem_Some _ _ _ H3).
  cbn [mbind result_bind number Py.truthy].
  assert (Hlt : Py.Qltb 0 (inject_Z nchans) = true).
  { apply Qltb_lt. assert (Hn : 0 < nchans) by lia.
    rewrite (Zlt_Qlt 0 nchans) in Hn. exact Hn. }
  rewrite Hlt, np_int_inject_Z. change (Np.int 0) with 0.
  eexists _, _. split; [ reflexivity | ]. cbn [freqs set_freqs].
  unfold Np.arange. rewrite Z.sub_0_r.
  set (f := fun k : Z => (foff * inject_Z k + fch1)%Q).
  assert (Hlen : length (map f (seqZ 0 nchans)) = Z.to_nat nchans)
    by (now rewrite length_map, length_seqZ).
  destruct (Py.Qltb foff 0).
  - split; [ rewrite length_rev, Hlen; lia | ].
    rewrite lookup_rev by (rewrite Hlen; lia). rewrite Hlen.
    rewrite lookup_map.
    rewrite (lookup_seqZ_lt 0 nchans) by lia. cbn [fmap option_fmap option_map].
    replace (0 + Z.of_nat (Z.to_nat nchans - S (Z.to_nat i)))
      with (nchans - 1 - i) by lia.
    reflexivity.
  - split; [ rewrite Hlen; lia | ].
    rewrite lookup_map. rewrite (lookup_seqZ_lt 0 nchans) by lia.
    cbn [fmap option_fmap option_map].
    replace (0 + Z.of_nat (Z.to_nat i)) with i by lia.
    reflexivity.
Qed.

Lemma setup_freqs_channel_of_entry_witness :
  ∃ self' ret,
    _setup_freqs Examples.fb_1420_raw None None = Ok (self', ret) ∧
    Z.of_nat (length (freqs self')) = 4 ∧
    freqs self' !! Z.to_nat 1
    = Some ((-0.5) * inject_Z (if Py.Qltb (-0.5) 0 then 4 - 1 - 1 else 1)
            + 1420.0)%Q.
Proof.
  apply (setup_freqs_channel_of_entry Examples.fb_1420_raw 1420.0 (-0.5) 4 1);
    [ reflexivity | reflexivity | reflexivity | lia ].
Defined.



(** ** The time axis *)

(** X6: the time axis has one entry for each integration between t_start
    and t_stop, entry i is tstart + i * tsamp / 86400 counted from the
    header's tstart whatever t_start is, and the entries are strictly
    ascending for a positive sampling time. *)
Theorem setup_time_axis_values (h : gmap string value) (tstart tsamp : Q)
    (n_ints_in_file : Z) (t_start t_stop : option Z) :
  h !! "tstart" = Some (VFloat tstart) →
  h !! "tsamp" = Some (VFloat tsamp) →
  let n_ints := default n_ints_in_file (Py.truthy_int t_stop)
                - default 0 (Py.truthy_int t_start) in
  ∃ ts,
    __setup_time_axis h n_ints_in_file t_start t_stop = Ok ts ∧
    length ts = Z.to_nat n_ints ∧
    (∀ i, 0 ≤ i < n_ints →
       ∃ x, ts !! Z.to_nat i = Some x ∧
            (x == tstart + inject_Z i * tsamp / 86400)%Q) ∧
    ((0 < tsamp)%Q → StronglySorted Qlt ts).
Proof.
  intros H1 H2 n_ints. unfold __setup_time_axis. fold n_ints.
  rewrite (getitem_Some _ _ _ H1), (getitem_Some _ _ _ H2).
  cbn [mbind result_bind number].
  eexists. split; [ reflexivity | ].
  unfold Np.arange. rewrite Z.sub_0_r.
  split; [ now rewrite length_map, length_seqZ | ]. split.
  - intros i Hi. rewrite lookup_map, (lookup_seqZ_lt 0 n_ints) by lia.
    cbn [fmap option_fmap option_map]. eexists. split; [ reflexivity | ].
    replace (0 + Z.of_nat (Z.to_nat i)) with i by lia. field.
  - intros Hpos.
    apply (StronglySorted_fmap _ Z.lt).
    + intros x y Hxy. apply Qplus_lt_l. unfold Qdiv.
      do 3 (apply Qmult_lt_compat_r; [ reflexivity | ]).
      apply Qmult_lt_compat_r; [ exact Hpos | ].
      rewrite <- Zlt_Qlt. exact Hxy.
    + destruct (Z_le_gt_dec n_ints 0) as [ Hle | Hgt ].
      * rewrite seqZ_nil by lia. constructor.
      * rewrite <- (Z2Nat.id n_ints) by lia. apply seqZ_StronglySorted.
Qed.

Lemma setup_time_axis_values_witness :
  ∃ ts,
    __setup_time_axis Examples.header_1420_file 16 (Some 4) (Some 10) = Ok ts ∧
    length ts = Z.to_nat (10 - 4) ∧
    (∀ i, 0 ≤ i < 10 - 4 →
       ∃ x, ts !! Z.to_nat i = Some x ∧
            (x == 57650 + inject_Z i * 18.25 / 86400)%Q) ∧
    ((0 < 18.25)%Q → StronglySorted Qlt ts).
Proof.
  apply (setup_time_axis_values Examples.header_1420_file 57650 18.25 16
           (Some 4) (Some 10));
    reflexivity.
Defined.

(** ** DC blanking in general *)




(** X8: [blank_dc] raises ZeroDivisionError for zero coarse channels and
    returns the data untouched for a negative number of them. *)
Theorem blank_dc_not_positive (self : Filterbank) (n_coarse_chan : Z) :
  n_coarse_chan ≤ 0 →
  match blank_dc self n_coarse_chan with
  | Ok self' => n_coarse_chan < 0 ∧ data self' = data self
  | Err e => n_coarse_chan = 0 ∧ e = ZeroDivisionError
  end.
Proof.
  intros Hc. unfold blank_dc, py_div.
  destruct (Z.eqb_spec n_coarse_chan 0) as [ -> | Hne ].
  - cbn. split; reflexivity.
  - cbn [mbind result_bind]. unfold Py.range. rewrite seqZ_nil by lia.
    cbn. split; [ lia | ]. now destruct (data self).
Qed.

Lemma blank_dc_not_positive_witness :
  match blank_dc Examples.fb_8chan (-2) with
  | Ok self' => -2 < 0 ∧ data self' = data Examples.fb_8chan
  | Err e => -2 = 0 ∧ e = ZeroDivisionError
  end.
Proof.
  apply (blank_dc_not_positive Examples.fb_8chan (-2)). lia.
Defined.

(** A stored value at [k] hides what was stored at [k] before. *)
Lemma insert_apply_updates_insert (ups : list (nat * Q)) (k : nat) (v w : Q)
    (row : list Q) :
  <[k := v]> (apply_updates ups (<[k := w]> row))
  = <[k := v]> (apply_updates ups row).
Proof.
  unfold apply_updates. revert row.
  induction ups as [ | kv ups IH ]; intros row; cbn [foldl].
  - apply list_insert_insert_eq.
  - destruct (decide (kv.1 = k)) as [ <- | Hne ].
    + now rewrite list_insert_insert_eq.
    + rewrite list_insert_insert_ne by exact Hne. apply IH.
Qed.

Lemma apply_updates_twice (ups : list (nat * Q)) (row : list Q) :
  apply_updates ups (apply_updates ups row) = apply_updates ups row.
Proof.
  induction ups as [ | kv ups IH ] using rev_ind; [ reflexivity | ].
  rewrite !apply_updates_snoc. rewrite insert_apply_updates_insert.
  now rewrite IH.
Qed.

(** Rows updated only outside a window show the same window. *)
Lemma chan_slice_apply_updates_outside (ups : list (nat * Q)) (a b : Z)
    (it : list (list (list Q))) :
  0 ≤ a ≤ b →
  Forall (fun kv => Z.of_nat kv.1 < a ∨ b ≤ Z.of_nat kv.1) ups →
  Np.chan_slice a b (map (map (apply_updates ups)) it) = Np.chan_slice a b it.
Proof.
  intros Hab Hk. unfold Np.chan_slice.
  rewrite map_map. apply map_ext. intros plane.
  rewrite map_map. apply map_ext. intros row.
  rewrite !py_slice_nonneg by assumption.
  unfold apply_updates. revert row.
  induction Hk as [ | kv ups Hkv _ IH ]; intros row; cbn [foldl]; [ reflexivity | ].
  rewrite IH. destruct Hkv as [ Hlo | Hhi ].
  - rewrite drop_insert_lt by lia. reflexivity.
  - rewrite drop_insert_ge by lia. rewrite take_insert_ge by lia. reflexivity.
Qed.

(** X9: when every band has at least ten channels, blanking a second time
    changes nothing: the windows read by [blank_dc] hold no DC channel, so
    the second pass stores the values of the first. *)
Theorem blank_dc_twice (self : Filterbank) (n_coarse_chan : Z) :
  let n_chan := (Np.shape (data self)).2 in
  0 < n_coarse_chan → 10 ≤ n_chan / n_coarse_chan →
  ∃ self',
    blank_dc self n_coarse_chan = Ok self' ∧
    blank_dc self' n_coarse_chan = Ok self'.
Proof.
  intros n_chan Hc Hper.
  rewrite (blank_dc_explicit self n_coarse_chan Hc ltac:(fold n_chan; lia)).
  fold n_chan. set (per := n_chan / n_coarse_chan) in *.
  set (it := Np.items (data self)).
  set (ups := dc_updates per it (Py.range n_coarse_chan)).
  eexists. split; [ reflexivity | ].
  rewrite blank_dc_explicit; cbn [data set_data Np.shape Np.items];
    fold n_chan; fold per; [ | exact Hc | lia ].
  assert (Hhalf1 : 1 ≤ per / 2) by (apply Z.div_le_lower_bound; lia).
  assert (Eups : dc_updates per (map (map (apply_updates ups)) it)
                   (Py.range n_coarse_chan) = ups).
  { unfold ups at 2. unfold dc_updates. apply map_ext_in. intros ii Hii.
    apply list_elem_of_In, elem_of_seqZ in Hii. cbv zeta. do 3 f_equal.
    apply chan_slice_apply_updates_outside.
    - unfold dc_index. nia.
    - unfold ups, dc_updates, Py.range. apply Forall_map. apply Forall_seqZ.
      intros jj Hjj. cbn.
      assert (0 ≤ dc_index per jj) by (unfold dc_index; nia).
      rewrite Z2Nat.id by assumption.
      destruct (Z_le_gt_dec jj ii) as [ Hle | Hgt ].
      + left. unfold dc_index. nia.
      + right. unfold dc_index. nia. }
  rewrite Eups. unfold set_data. cbn [filename header n_ints_in_file freqs file_attrs].
  do 3 f_equal.
  rewrite map_map. apply map_ext. intros plane.
  rewrite map_map. apply map_ext. intros row.
  apply apply_updates_twice.
Qed.

Lemma blank_dc_twice_witness :
  ∃ self',
    blank_dc Examples.fb_24chan 2 = Ok self' ∧
    blank_dc self' 2 = Ok self'.
Proof.
  apply (blank_dc_twice Examples.fb_24chan 2); [ lia | vm_compute; discriminate ].
Defined.

(** ** Chunk and blob planning in general *)

Lemma prefix_spec (s1 s2 : string) :
  String.prefix s1 s2 = true ↔ ∃ rest, s2 = s1 +:+ rest.
Proof.
  revert s2. induction s1 as [ | a s1 IH ]; intros [ | b s2 ]; cbn.
  - split; [ intros _; now exists EmptyString | reflexivity ].
  - split; [ intros _; now exists (String b s2) | reflexivity ].
  - split; [ discriminate | intros [ rest H ]; discriminate H ].
  - destruct (Ascii.ascii_dec a b) as [ <- | Hne ].
    + rewrite IH. split; intros [ rest H ]; exists rest.
      * now rewrite H.
      * now injection H.
    + split; [ discriminate | ].
      intros [ rest H ]. injection H as Hab _. now symmetry in Hab.
Qed.

(** [Py.contains] decides whether the marker occurs in the name. *)
Lemma contains_spec (marker name : string) :
  Py.contains marker name = true ↔ occurs_in marker name.
Proof.
  unfold occurs_in. induction name as [ | c name IH ]; cbn [Py.contains].
  - rewrite orb_false_r, prefix_spec. split.
    + intros [ rest H ]. now exists EmptyString, rest.
    + intros ([ | c before ] & after & H); [ now exists after | discriminate H ].
  - rewrite orb_true_iff, prefix_spec, IH. split.
    + intros [ [ rest H ] | (before & after & H) ].
      * now exists EmptyString, rest.
      * exists (String c before), after. cbn. now rewrite H.
    + intros ([ | c' before ] & after & H).
      * left. now exists after.
      * right. cbn in H. injection H as _ H. now exists before, after.
Qed.

Lemma contains_false (marker name : string) :
  Py.contains marker name = false ↔ ¬ occurs_in marker name.
Proof.
  rewrite <- contains_spec. now destruct (Py.contains marker name).
Qed.

(** X10: the chunk planner answers with one of three tuples, chosen by the
    first of the markers gpuspec.0000., gpuspec.0001., gpuspec.0002. that
    occurs anywhere in the file name, and with True exactly when none of
    them occurs. *)
Theorem chunk_dimentions_cases (self : Filterbank) :
  match __get_chunk_dimentions self with
  | H5.ChunkTuple ct cb cf =>
      (occurs_in "gpuspec.0000." (filename self) ∧
       (ct, cb, cf) = (1, 1, 1048576)) ∨
      (¬ occurs_in "gpuspec.0000." (filename self) ∧
       occurs_in "gpuspec.0001." (filename self) ∧
       (ct, cb, cf) = (512, 1, 2048)) ∨
      (¬ occurs_in "gpuspec.0000." (filename self) ∧
       ¬ occurs_in "gpuspec.0001." (filename self) ∧
       occurs_in "gpuspec.0002." (filename self) ∧
       (ct, cb, cf) = (10, 1, 65536))
  | H5.ChunkTrue =>
      ¬ occurs_in "gpuspec.0000." (filename self) ∧
      ¬ occurs_in "gpuspec.0001." (filename self) ∧
      ¬ occurs_in "gpuspec.0002." (filename self)
  end.
Proof.
  unfold __get_chunk_dimentions.
  destruct (Py.contains "gpuspec.0000." (filename self)) eqn:E0.
  { left. apply contains_spec in E0. now split. }
  apply contains_false in E0.
  destruct (Py.contains "gpuspec.0001." (filename self)) eqn:E1.
  { right. left. apply contains_spec in E1. now repeat split. }
  apply contains_false in E1.
  destruct (Py.contains "gpuspec.0002." (filename self)) eqn:E2.
  { right. right. apply contains_spec in E2. now repeat split. }
  apply contains_false in E2. now repeat split.
Qed.

(** X11: for a file with a positive channel count and a chunk tuple with
    positive extents, the blob is never wider than the file nor than 256
    chunks, is at least one chunk long, and is as long as the 256-chunk
    sample budget allows: one more row would exceed it. *)
Theorem blob_dimentions_bounds (self : Filterbank) (fa : FileAttrs) (ct cb cf : Z) :
  file_attrs self = Some fa →
  0 < n_channels_in_file fa → 0 < cf → 0 < ct →
  ∃ t f,
    __get_blob_dimentions self (H5.ChunkTuple ct cb cf) = Ok (t, 1, f) ∧
    0 < f ≤ n_channels_in_file fa ∧
    f ≤ cf * MAX_BLOB_MB ∧
    ct ≤ t ∧
    t * f ≤ ct * cf * MAX_BLOB_MB < (t + 1) * f.
Proof.
  intros Hfa Hn Hcf Hct.
  rewrite (get_blob_dimentions_tuple self fa ct cb cf Hfa Hn Hcf).
  eexists _, _. split; [ reflexivity | ].
  set (f := Z.min (n_channels_in_file fa) (cf * MAX_BLOB_MB)).
  assert (Hf : 0 < f ≤ n_channels_in_file fa ∧ f ≤ cf * MAX_BLOB_MB)
    by (unfold f, MAX_BLOB_MB; lia).
  split; [ tauto | ]. split; [ tauto | ].
  set (N := ct * MAX_BLOB_MB * cf).
  pose proof (Z.mul_div_le N f ltac:(lia)) as Hlo.
  pose proof (Z.mul_succ_div_gt N f ltac:(lia)) as Hhi.
  split.
  - apply Z.div_le_lower_bound; [ lia | ]. unfold N. nia.
  - unfold N in *. unfold Z.succ in Hhi. nia.
Qed.

Lemma blob_dimentions_bounds_witness :
  ∃ t f,
    __get_blob_dimentions Examples.fb_heavy (H5.ChunkTuple 512 1 2048) = Ok (t, 1, f) ∧
    0 < f ≤ n_channels_in_file Examples.fa_heavy ∧
    f ≤ 2048 * MAX_BLOB_MB ∧
    512 ≤ t ∧
    t * f ≤ 512 * 2048 * MAX_BLOB_MB < (t + 1) * f.
Proof.
  apply (blob_dimentions_bounds Examples.fb_heavy Examples.fa_heavy 512 1 2048);
    [ reflexivity | reflexivity | lia | lia ].
Defined.

(** X12: the conversion splits the frequency axis into blobs exactly when
    the file has more channels than 256 chunks hold; a blob is then one
    chunk long and 256 chunks wide, and otherwise spans all channels of
    the file. *)
Theorem blob_dimentions_split (self : Filterbank) (fa : FileAttrs) (ct cb cf : Z) :
  file_attrs self = Some fa →
  0 < n_channels_in_file fa → 0 < cf →
  ∃ blob_dim,
    __get_blob_dimentions self (H5.ChunkTuple ct cb cf) = Ok blob_dim ∧
    (blob_dim.2 <? n_channels_in_file fa)
    = (cf * MAX_BLOB_MB <? n_channels_in_file fa) ∧
    (cf * MAX_BLOB_MB < n_channels_in_file fa →
     blob_dim = (ct, 1, cf * MAX_BLOB_MB)) ∧
    (n_channels_in_file fa ≤ cf * MAX_BLOB_MB →
     blob_dim.2 = n_channels_in_file fa).
Proof.
  intros Hfa Hn Hcf.
  rewrite (get_blob_dimentions_tuple self fa ct cb cf Hfa Hn Hcf).
  eexists. split; [ reflexivity | ]. cbn [snd].
  split; [ | split ].
  - destruct (Z.ltb_spec (cf * MAX_BLOB_MB) (n_channels_in_file fa));
      destruct (Z.ltb_spec (Z.min (n_channels_in_file fa) (cf * MAX_BLOB_MB))
                  (n_channels_in_file fa)); lia.
  - intros Hlt. rewrite Z.min_r by lia.
    replace (ct * MAX_BLOB_MB * cf) with (ct * (cf * MAX_BLOB_MB)) by lia.
    rewrite Z.div_mul by (unfold MAX_BLOB_MB; lia). reflexivity.
  - intros Hle. now rewrite Z.min_l by lia.
Qed.

Lemma blob_dimentions_split_witness :
  ∃ blob_dim,
    __get_blob_dimentions Examples.fb_heavy (H5.ChunkTuple 512 1 2048) = Ok blob_dim ∧
    (blob_dim.2 <? n_channels_in_file Examples.fa_heavy)
    = (2048 * MAX_BLOB_MB <? n_channels_in_file Examples.fa_heavy) ∧
    (2048 * MAX_BLOB_MB < n_channels_in_file Examples.fa_heavy →
     blob_dim = (512, 1, 2048 * MAX_BLOB_MB)) ∧
    (n_channels_in_file Examples.fa_heavy ≤ 2048 * MAX_BLOB_MB →
     blob_dim.2 = n_channels_in_file Examples.fa_heavy).
Proof.
  apply (blob_dimentions_split Examples.fb_heavy Examples.fa_heavy 512 1 2048);
    [ reflexivity | reflexivity | lia ].
Defined.

(** ** The writers on objects they cannot serve *)

Section Writers.

Variable generate_sigproc_header : Filterbank → string.
Variable read_blob : Container → Z * Z * Z → Z → Np.ndarray.
Variable calc_n_blobs : Container → Z * Z * Z → Z.
Variable container_read_data :
  Container → option Q → option Q → option Z → option Z → Container.
Variable h5_store : Np.ndarray → H5.selection → Np.ndarray → result Np.ndarray.
Variable policy : H5.reverse_policy.

(** X13: converting a file that is too large to load and whose name has
    none of the three product markers fails with TypeError before anything
    is written: the planner's answer True cannot be indexed. *)
Theorem write_to_hdf5_unknown_product (self : Filterbank) (fa : FileAttrs) :
  file_attrs self = Some fa → heavy fa = true →
  ¬ occurs_in "gpuspec.0000." (filename self) →
  ¬ occurs_in "gpuspec.0001." (filename self) →
  ¬ occurs_in "gpuspec.0002." (filename self) →
  write_to_hdf5 read_blob calc_n_blobs h5_store policy self = Err TypeError.
Proof.
  intros Hfa Hheavy H0 H1 H2.
  apply contains_false in H0, H1, H2.
  unfold write_to_hdf5, __write_to_hdf5_heavy, get_file_attrs. rewrite Hfa.
  cbn [mbind result_bind]. rewrite Hheavy.
  unfold __get_chunk_dimentions. rewrite H0, H1, H2.
  unfold __get_blob_dimentions, get_file_attrs. rewrite Hfa. reflexivity.
Qed.

(** What [_setup_freqs] returns differs from the object it was called on
    in the frequency axis only. *)
Lemma setup_freqs_frame (self self' : Filterbank) (f_start f_stop : option Q)
    (ret : Q * Q * Z * Z) :
  _setup_freqs self f_start f_stop = Ok (self', ret) →
  ∃ fs, self' = set_freqs self fs.
Proof.
  unfold _setup_freqs. intros H.
  repeat match type of H with
         | mbind _ ?r = _ =>
             let E := fresh "E" in
             destruct r eqn:E; cbn [mbind result_bind] in H; [ | discriminate H ]
         end.
  injection H as <- _. eexists. reflexivity.
Qed.

(** X14: an object built from a header dictionary and a data array has no
    reader behind it: [write_to_hdf5] and [read_data] raise AttributeError
    on it. *)
Theorem header_built_object_has_no_reader (header_dict : gmap string value)
    (data_array : Np.ndarray) (self : Filterbank)
    (f_start f_stop : option Q) (t_start t_stop : option Z) :
  gen_from_header header_dict data_array = Ok self →
  write_to_hdf5 read_blob calc_n_blobs h5_store policy self = Err AttributeError ∧
  read_data container_read_data self f_start f_stop t_start t_stop
  = Err AttributeError ∧
  header self = header_dict ∧ data self = data_array.
Proof.
  unfold gen_from_header. intros H.
  destruct (_setup_freqs _ None None) as [ [ s ret ] | e ] eqn:E;
    cbn [mbind result_bind] in H; [ | discriminate H ].
  injection H as <-. apply setup_freqs_frame in E as [ fs -> ].
  repeat split.
Qed.

(** [write_to_fil] needs two entries of the frequency axis to rewrite the
    header. *)
Lemma write_to_fil_short_axis (self : Filterbank) :
  (length (freqs self) < 2)%nat →
  write_to_fil generate_sigproc_header self = Err IndexError.
Proof.
  intros Hlen. unfold write_to_fil.
  destruct (freqs self) as [ | f0 [ | f1 rest ] ]; cbn in *; try reflexivity.
  lia.
Qed.

(** X16: for a sample width other than 1, 2 or 4 bytes [write_to_fil]
    returns normally with the header rewritten and writes no sample at
    all. *)
Theorem write_to_fil_other_widths (self : Filterbank) (f0 f1 : Q) (nbits : Z) :
  freqs self !! 0%nat = Some f0 →
  freqs self !! 1%nat = Some f1 →
  header self !! "nbits" = Some (VInt nbits) →
  nbits / 8 ≠ 4 → nbits / 8 ≠ 2 → nbits / 8 ≠ 1 →
  ∃ self' out,
    write_to_fil generate_sigproc_header self = Ok (self', out) ∧
    fil_samples out = None ∧
    fil_header out = generate_sigproc_header self' ∧
    header self' !! "foff" = Some (VFloat (f1 - f0)).
Proof.
  intros Hf0 Hf1 Hbits H4 H2 H1.
  rewrite (write_to_fil_explicit _ self f0 f1 nbits Hf0 Hf1 Hbits). cbv zeta.
  eexists _, _. split; [ reflexivity | ]. cbn [fil_samples fil_header header set_header].
  assert (Hne : ∀ k : Z, nbits / 8 ≠ k → Qeq_bool (inject_Z (nbits / 8)) (inject_Z k) = false).
  { intros k Hk. apply Qeq_bool_false. rewrite inject_Z_injective. exact Hk. }
  change 4%Q with (inject_Z 4). change 2%Q with (inject_Z 2). change 1%Q with (inject_Z 1).
  rewrite !Hne by assumption.
  split; [ reflexivity | ]. split; [ reflexivity | ].
  rewrite lookup_insert_ne by discriminate. apply lookup_insert_eq.
Qed.

End Writers.

(** ** From a header dictionary to the flat file *)

(** [_setup_freqs] without bounds on a header with a non-negative channel
    count. *)
Lemma setup_freqs_no_bounds (self : Filterbank) (fch1 foff : Q) (nchans : Z) :
  header self !! "fch1" = Some (VFloat fch1) →
  header self !! "foff" = Some (VFloat foff) →
  header self !! "nchans" = Some (VInt nchans) →
  0 ≤ nchans →
  _setup_freqs self None None
  = Ok (set_freqs self (full_axis fch1 foff nchans),
        (0%Q, inject_Z nchans, 0, nchans)).
Proof.
  intros H1 H2 H3 Hn. unfold _setup_freqs.
  rewrite (getitem_Some _ _ _ H1), (getitem_Some _ _ _ H2), (getitem_Some _ _ _ H3).
  cbn [mbind result_bind number Py.truthy].
  rewrite np_int_inject_Z. change (Np.int 0) with 0.
  unfold full_axis, Np.arange. rewrite Z.sub_0_r.
  destruct (Py.Qltb 0 (inject_Z nchans)) eqn:E; [ reflexivity | ].
  apply Qltb_ge in E. change 0%Q with (inject_Z 0) in E. rewrite <- Zle_Qle in E.
  assert (nchans = 0) as -> by lia. reflexivity.
Qed.

Lemma full_axis_length (fch1 foff : Q) (nchans : Z) :
  length (full_axis fch1 foff nchans) = Z.to_nat nchans.
Proof.
  unfold full_axis. cbv zeta.
  destruct (Py.Qltb foff 0); [ rewrite length_rev | ];
    now rewrite length_map, length_seqZ.
Qed.


Lemma gen_from_header_full_axis (h : gmap string value) (d : Np.ndarray)
    (fch1 foff : Q) (nchans : Z) :
  h !! "fch1" = Some (VFloat fch1) →
  h !! "foff" = Some (VFloat foff) →
  h !! "nchans" = Some (VInt nchans) →
  0 ≤ nchans →
  gen_from_header h d
  = Ok {| filename := ""; header := h; n_ints_in_file := 0; data := d;
          freqs := full_axis fch1 foff nchans; file_attrs := None |}.
Proof.
  intros H1 H2 H3 Hn. unfold gen_from_header.
  rewrite (setup_freqs_no_bounds
             {| filename := ""; header := h; n_ints_in_file := 0; data := d;
                freqs := []; file_attrs := None |}
             fch1 foff nchans H1 H2 H3 Hn).
  reflexivity.
Qed.

(** X15: an object built from a header of zero or one channel cannot be
    written to the flat format: [write_to_fil] needs two entries of the
    frequency axis to rewrite the header and raises IndexError. *)
Theorem single_channel_object_not_writable
    (generate_sigproc_header : Filterbank → string)
    (h : gmap string value) (d : Np.ndarray) (fch1 foff : Q) (nchans : Z) :
  h !! "fch1" = Some (VFloat fch1) →
  h !! "foff" = Some (VFloat foff) →
  h !! "nchans" = Some (VInt nchans) →
  0 ≤ nchans ≤ 1 →
  ∃ self,
    gen_from_header h d = Ok self ∧
    write_to_fil generate_sigproc_header self = Err IndexError.
Proof.
  intros H1 H2 H3 Hn.
  rewrite (gen_from_header_full_axis h d fch1 foff nchans H1 H2 H3) by lia.
  eexists. split; [ reflexivity | ].
  apply write_to_fil_short_axis. cbn [freqs]. rewrite full_axis_length. lia.
Qed.




Lemma write_to_hdf5_unknown_product_witness :
  write_to_hdf5 Examples.blank_blob Examples.two_blobs Examples.store_nothing
    H5.EmptyReverse Objects.fb_plain_heavy
  = Err TypeError.
Proof.
  apply (write_to_hdf5_unknown_product Examples.blank_blob Examples.two_blobs
           Examples.store_nothing H5.EmptyReverse Objects.fb_plain_heavy
           Examples.fa_heavy);
    [ reflexivity | reflexivity
    | apply contains_false; reflexivity
    | apply contains_false; reflexivity
    | apply contains_false; reflexivity ].
Defined.

Lemma header_built_object_has_no_reader_witness :
  ∃ self,
    gen_from_header Examples.header_1420 Examples.data_1x1x4 = Ok self ∧
    write_to_hdf5 Examples.blank_blob Examples.two_blobs Examples.store_nothing
      H5.EmptyReverse self = Err AttributeError ∧
    read_data Examples.same_container self None None None None
    = Err AttributeError ∧
    header self = Examples.header_1420 ∧ data self = Examples.data_1x1x4.
Proof.
  destruct (gen_from_header Examples.header_1420 Examples.data_1x1x4)
    as [ self | e ] eqn:E; [ | vm_compute in E; discriminate E ].
  exists self. split; [ reflexivity | ].
  exact (header_built_object_has_no_reader Examples.blank_blob
           Examples.two_blobs Examples.same_container Examples.store_nothing
           H5.EmptyReverse Examples.header_1420 Examples.data_1x1x4 self
           None None None None E).
Defined.

Lemma single_channel_object_not_writable_witness :
  ∃ self,
    gen_from_header Objects.header_1chan Objects.data_1x1x1 = Ok self ∧
    write_to_fil Examples.header_bytes self = Err IndexError.
Proof.
  apply (single_channel_object_not_writable Examples.header_bytes
           Objects.header_1chan Objects.data_1x1x1 1420.0 (-0.5) 1);
    [ reflexivity | reflexivity | reflexivity | lia ].
Defined.

Lemma write_to_fil_other_widths_witness :
  ∃ self' out,
    write_to_fil Examples.header_bytes Objects.fb_64bit = Ok (self', out) ∧
    fil_samples out = None ∧
    fil_header out = Examples.header_bytes self' ∧
    header self' !! "foff" = Some (VFloat (1419.00 - 1418.50)).
Proof.
  apply (write_to_fil_other_widths Examples.header_bytes Objects.fb_64bit
           (1418.50)%Q (1419.00)%Q 64);
    [ reflexivity | reflexivity | reflexivity
    | discriminate | discriminate | discriminate ].
Defined.


(** ** The values [blank_dc] stores *)

(** The median of a non-empty list lies within any bounds of its entries. *)
Lemma median_between (lo hi : Q) (l : list Q) :
  l ≠ [] →
  Forall (fun x => lo <= x <= hi)%Q l →
  (lo <= Np.median l <= hi)%Q.
Proof.
  intros Hne Hl. unfold Np.median.
  set (s := Np.sort l).
  assert (Hs : Forall (fun x => lo <= x <= hi)%Q s).
  { unfold s. now rewrite sort_perm. }
  assert (Hlen : (0 < length s)%nat).
  { unfold s. rewrite (Permutation_length (sort_perm l)).
    destruct l; [ contradiction | cbn; lia ]. }
  assert (Hnth : ∀ i, (i < length s)%nat → (lo <= nth i s 0 <= hi)%Q).
  { intros i Hi. rewrite Forall_forall in Hs. apply Hs.
    apply list_elem_of_In. now apply nth_In. }
  assert (Hdiv : (length s / 2 < length s)%nat) by (apply Nat.div_lt; lia).
  destruct (Nat.even (length s)).
  - destruct (Hnth (length s / 2 - 1)%nat ltac:(lia)) as [ Ha1 Ha2 ].
    destruct (Hnth (length s / 2)%nat Hdiv) as [ Hb1 Hb2 ].
    set (a := nth (length s / 2 - 1) s 0%Q) in *.
    set (b := nth (length s / 2) s 0%Q) in *.
    split.
    + apply Qle_shift_div_l; [ reflexivity | ].
      assert (E : (lo * 2 == lo + lo)%Q) by ring. rewrite E.
      now apply Qplus_le_compat.
    + apply Qle_shift_div_r; [ reflexivity | ].
      assert (E : (hi * 2 == hi + hi)%Q) by ring. rewrite E.
      now apply Qplus_le_compat.
  - now apply Hnth.
Qed.

Lemma apply_updates_Forall (P : Q → Prop) (ups : list (nat * Q)) (row : list Q) :
  Forall P row → Forall (fun kv => P kv.2) ups →
  Forall P (apply_updates ups row).
Proof.
  unfold apply_updates. intros Hrow Hups. revert row Hrow.
  induction Hups as [ | kv ups Hkv _ IH ]; intros row Hrow; cbn [foldl];
    [ exact Hrow | ].
  apply IH. now apply Forall_insert.
Qed.

(** In an array that has a row, the window after a channel that is not the
    last one holds a sample. *)
Lemma window_not_empty (a : Np.ndarray) (idx : Z) :
  Np.wf a → concat (Np.items a) ≠ [] →
  0 ≤ idx → idx + 2 ≤ (Np.shape a).2 →
  Np.ravel (Np.chan_slice (idx + 1) (idx + 10) (Np.items a)) ≠ [].
Proof.
  destruct a as [ [ [ T B ] F ] it ]. unfold Np.wf. cbn [Np.shape Np.items snd].
  intros [ _ Hwf ] Hrows Hidx Hlast. unfold Np.ravel, Np.chan_slice.
  induction Hwf as [ | plane it [ _ Hplane ] _ IH ]; [ contradiction | ].
  cbn [map concat]. destruct plane as [ | row plane ].
  - cbn [map concat app]. apply IH. exact Hrows.
  - cbn [map concat]. inversion Hplane as [ | ? ? Hrow _ ]; subst.
    rewrite (py_slice_nonneg row) by lia.
    destruct (drop (Z.to_nat (idx + 1)) row) as [ | x rest ] eqn:E.
    + apply (f_equal length) in E. rewrite length_drop in E. cbn in E. lia.
    + replace (Z.to_nat (idx + 10 - (idx + 1))) with 9%nat by lia.
      cbn. discriminate.
Qed.

(** X18: [blank_dc] stays within the range of the data: when every band
    has at least two channels and every sample lies between two bounds,
    every sample of the result lies between them too. *)
Theorem blank_dc_keeps_range (self : Filterbank) (n_coarse_chan : Z) (lo hi : Q) :
  let n_chan := (Np.shape (data self)).2 in
  Np.wf (data self) →
  0 < n_coarse_chan → 2 ≤ n_chan / n_coarse_chan →
  Forall (Forall (Forall (fun x => lo <= x <= hi)%Q)) (Np.items (data self)) →
  ∃ self',
    blank_dc self n_coarse_chan = Ok self' ∧
    Forall (Forall (Forall (fun x => lo <= x <= hi)%Q)) (Np.items (data self')).
Proof.
  intros n_chan Hwf Hc Hper Hdata.
  rewrite (blank_dc_explicit self n_coarse_chan Hc ltac:(fold n_chan; lia)).
  fold n_chan. set (per := n_chan / n_coarse_chan) in *.
  eexists. split; [ reflexivity | ]. cbn [data set_data Np.items].
  destruct (concat (Np.items (data self))) as [ | row0 rows ] eqn:Erows.
  - (* no row at all: nothing to store into *)
    assert (Hempty : Forall (fun plane => plane = []) (Np.items (data self))).
    { clear - Erows. induction (Np.items (data self)) as [ | p it IH ];
        [ constructor | ].
      cbn in Erows. apply app_eq_nil in Erows as [ -> E ].
      constructor; [ reflexivity | now apply IH ]. }
    apply Forall_map. eapply Forall_impl; [ exact Hempty | ].
    cbn. intros plane ->. constructor.
  - assert (Hups : Forall (fun kv => lo <= kv.2 <= hi)%Q
                     (dc_updates per (Np.items (data self)) (Py.range n_coarse_chan))).
    { unfold dc_updates, Py.range. apply Forall_map. apply Forall_seqZ.
      intros ii Hii. cbn [snd].
      pose proof (Z.mul_div_le n_chan n_coarse_chan Hc) as Hmul. fold per in Hmul.
      assert (Hhalf1 : 1 ≤ per / 2) by (apply Z.div_le_lower_bound; lia).
      assert (Hhalf2 : per / 2 < per) by (apply Z.div_lt; lia).
      assert (Hidx : 0 ≤ dc_index per ii ∧ dc_index per ii + 2 ≤ n_chan)
        by (unfold dc_index; nia).
      apply median_between.
      - apply window_not_empty; [ exact Hwf | | lia | fold n_chan; lia ].
        rewrite Erows. discriminate.
      - unfold Np.ravel, Np.chan_slice.
        apply Forall_concat. apply Forall_concat.
        apply Forall_map. eapply Forall_impl; [ exact Hdata | ].
        cbn beta. intros plane Hplane.
        apply Forall_map. eapply Forall_impl; [ exact Hplane | ].
        cbn beta. intros row Hrow. rewrite py_slice_nonneg by lia.
        apply Forall_take. now apply Forall_drop. }
    apply Forall_map. eapply Forall_impl; [ exact Hdata | ].
    cbn. intros plane Hplane.
    apply Forall_map. eapply Forall_impl; [ exact Hplane | ].
    cbn. intros row Hrow. now apply apply_updates_Forall.
Qed.

Lemma blank_dc_keeps_range_witness :
  ∃ self',
    blank_dc Examples.fb_8chan 2 = Ok self' ∧
    Forall (Forall (Forall (fun x => 1 <= x <= 8)%Q)) (Np.items (data self')).
Proof.
  apply (blank_dc_keeps_range Examples.fb_8chan 2 1 8).
  - vm_compute. repeat constructor.
  - lia.
  - vm_compute. discriminate.
  - vm_compute. repeat constructor; discriminate.
Defined.

(** ** Where the blobs go *)

(** X19: with a channel spacing that is not negative, a reader that starts
    at channel 0 and a file of k blob widths, blob ii goes to the channel
    block (ii mod k) and to the rows that start at (ii / k) blob lengths
    after the reader's first row; the selection is never in reverse order,
    so it is handed to h5py as it is.  The row slice is as long as the
    blob is wide. *)
Theorem blob_selection_tiles
    (h5_store : Np.ndarray → H5.selection → Np.ndarray → result Np.ndarray)
    (policy : H5.reverse_policy)
    (self : Filterbank) (fa : FileAttrs) (blob_t blob_b blob_f k ii T B : Z)
    (foff : value) :
  header self !! "foff" = Some foff → lt_zero foff = false →
  c_c_start (container fa) = 0 → 0 ≤ c_t_start (container fa) →
  0 ≤ blob_t → 0 < blob_f → 0 < k →
  n_channels_in_file fa = k * blob_f → 0 ≤ ii →
  let t_start := c_t_start (container fa) + ii / k * blob_t in
  let c_start := ii mod k * blob_f in
  let sel := H5.SelBlock t_start (t_start + blob_f) 0 c_start (c_start + blob_f) in
  blob_selection self fa (blob_t, blob_b, blob_f) ii = Ok sel ∧
  0 ≤ c_start ∧ c_start + blob_f ≤ n_channels_in_file fa ∧
  ∀ d bob,
    Np.shape d = (T, B, n_channels_in_file fa) →
    dset_setitem h5_store policy d sel bob = h5_store d sel bob.
Proof.
  intros Hfoff Hsign Hc0 Ht0 Hbt Hbf Hk Hn Hii. cbv zeta.
  pose proof (Z.mod_pos_bound ii k Hk) as Hmod.
  pose proof (Z.div_pos ii k Hii Hk) as Hdiv.
  split; [ | split; [ nia | split; [ nia | ] ] ].
  - unfold blob_selection. rewrite Hc0, Hn, Z.add_0_l.
    rewrite py_div_pos by nia. cbn [mbind result_bind].
    rewrite (getitem_Some _ _ _ Hfoff). cbn [mbind result_bind]. rewrite Hsign.
    rewrite py_mod_pos by nia. cbn [mbind result_bind].
    rewrite Z.div_mul_cancel_r by lia. rewrite Z.mul_mod_distr_r by lia.
    reflexivity.
  - intros d bob Hd. unfold dset_setitem. rewrite Hd.
    cbn [H5.reverse_order]. unfold H5.slice_reversed, Py.slice_indices.
    rewrite !clamp_bound_nonneg by nia.
    destruct (Z.ltb_spec
                (Z.min (c_t_start (container fa) + ii / k * blob_t + blob_f) T)
                (Z.min (c_t_start (container fa) + ii / k * blob_t) T));
      [ lia | ].
    destruct (Z.ltb_spec
                (Z.min (ii mod k * blob_f + blob_f) (n_channels_in_file fa))
                (Z.min (ii mod k * blob_f) (n_channels_in_file fa)));
      [ lia | ].
    reflexivity.
Qed.

Lemma blob_selection_tiles_witness :
  blob_selection Examples.fb_heavy_up Examples.fa_heavy (512, 1, 524288) 1
  = Ok (H5.SelBlock (0 + 1 / 2 * 512) (0 + 1 / 2 * 512 + 524288) 0
          (1 mod 2 * 524288) (1 mod 2 * 524288 + 524288)) ∧
  0 ≤ 1 mod 2 * 524288 ∧
  1 mod 2 * 524288 + 524288 ≤ n_channels_in_file Examples.fa_heavy ∧
  ∀ d bob,
    Np.shape d = (16, 1, n_channels_in_file Examples.fa_heavy) →
    dset_setitem Examples.store_nothing H5.RejectReverse d
      (H5.SelBlock (0 + 1 / 2 * 512) (0 + 1 / 2 * 512 + 524288) 0
         (1 mod 2 * 524288) (1 mod 2 * 524288 + 524288)) bob
    = Examples.store_nothing d
        (H5.SelBlock (0 + 1 / 2 * 512) (0 + 1 / 2 * 512 + 524288) 0
           (1 mod 2 * 524288) (1 mod 2 * 524288 + 524288)) bob.
Proof.
  apply (blob_selection_tiles Examples.store_nothing H5.RejectReverse
           Examples.fb_heavy_up Examples.fa_heavy 512 1 524288 2 1 16 1
           (VFloat 0.5));
    try reflexivity; lia.
Defined.

(** ** Grabbing a frequency range *)

Lemma py_slice_length_eq {A B : Type} (l1 : list A) (l2 : list B) (a b : Z) :
  length l1 = length l2 →
  length (Py.slice l1 a b) = length (Py.slice l2 a b).
Proof.
  intros E. unfold Py.slice. rewrite E.
  destruct (Py.slice_indices _ a b) as [ a' b' ].
  now rewrite !length_take, !length_drop, E.
Qed.

Lemma py_slice_part {A : Type} (l : list A) (a b : Z) :
  ∃ before after, l = before ++ Py.slice l a b ++ after.
Proof.
  unfold Py.slice. destruct (Py.slice_indices _ a b) as [ a' b' ].
  exists (take (Z.to_nat a') l),
         (drop (Z.to_nat (b' - a')) (drop (Z.to_nat a') l)).
  now rewrite take_drop, take_drop.
Qed.

(** X20: [grab_data] returns a run of consecutive entries of the frequency
    axis and, for every integration, the samples of the chosen beam at the
    same positions: as many samples as frequencies, whatever index
    [closest] picks. *)
Theorem grab_data_shapes (closest : list Q → Q → Z) (self : Filterbank)
    (f_start f_stop : option Q) (if_id : Z) :
  Np.wf (data self) →
  Z.of_nat (length (freqs self)) = (Np.shape (data self)).2 →
  0 ≤ if_id < (Np.shape (data self)).1.2 →
  ∃ plot_f plot_data,
    grab_data closest self f_start f_stop if_id = Ok (plot_f, plot_data) ∧
    (∃ before after, freqs self = before ++ plot_f ++ after) ∧
    Z.of_nat (length plot_data) = (Np.shape (data self)).1.1 ∧
    Forall (fun row => length row = length plot_f) plot_data.
Proof.
  intros Hwf Hlen Hid. unfold grab_data.
  rewrite py_index_in_range by exact Hid. cbn [mbind result_bind].
  eexists _, _. split; [ reflexivity | ].
  split; [ apply py_slice_part | ].
  destruct (data self) as [ [ [ T B ] F ] it ]. unfold Np.wf in Hwf.
  cbn [Np.shape Np.items fst snd] in *. destruct Hwf as [ HT Hplanes ].
  split; [ now rewrite length_map | ].
  apply Forall_map. eapply Forall_impl; [ exact Hplanes | ].
  cbn beta. intros plane [ HB Hrows ].
  destruct (plane !! Z.to_nat if_id) as [ row | ] eqn:Erow;
    [ | apply lookup_ge_None in Erow; lia ].
  cbn [default]. rewrite Forall_forall in Hrows.
  assert (Hrow : length row = length (freqs self)).
  { apply list_elem_of_lookup_2 in Erow. apply Hrows in Erow. lia. }
  unfold slice_to, id. rewrite Hrow. now apply py_slice_length_eq.
Qed.

Lemma grab_data_shapes_witness :
  ∃ plot_f plot_data,
    grab_data Objects.first_not_below Examples.fb_1420 (Some 1419.0%Q) None 0
    = Ok (plot_f, plot_data) ∧
    (∃ before after, freqs Examples.fb_1420 = before ++ plot_f ++ after) ∧
    Z.of_nat (length plot_data) = (Np.shape (data Examples.fb_1420)).1.1 ∧
    Forall (fun row => length row = length plot_f) plot_data.
Proof.
  apply (grab_data_shapes Objects.first_not_below Examples.fb_1420
           (Some 1419.0%Q) None 0).
  - vm_compute. repeat constructor.
  - reflexivity.
  - change (0 ≤ 0 < 1). lia.
Defined.

Example grab_data_from_1419 :
  ∃ plot_f,
    grab_data Objects.first_not_below Examples.fb_1420 (Some 1419.0%Q) None 0
    = Ok (plot_f, [[20; 30; 40]]%Q) ∧
    Forall2 Qeq plot_f [1419.0; 1419.5; 1420.0]%Q.
Proof.
  eexists. split; [ vm_compute; reflexivity | repeat constructor ].
Qed.

(** ** Opening and converting a small file *)



(** X22: on a data array without channels [blank_dc] raises IndexError for
    every positive number of coarse channels: the channel index of band 0
    is -1 and the axis is empty. *)
Theorem blank_dc_no_channels (self : Filterbank) (n_coarse_chan : Z) :
  (Np.shape (data self)).2 = 0 → 0 < n_coarse_chan →
  blank_dc self n_coarse_chan = Err IndexError.
Proof.
  intros Hn Hc. unfold blank_dc. rewrite Hn.
  rewrite py_div_pos by lia. cbn [mbind result_bind].
  unfold Py.range. rewrite seqZ_cons by lia.
  cbn [blank_dc_loop]. unfold blank_dc_step.
  rewrite Z.div_0_l by lia. reflexivity.
Qed.

Lemma blank_dc_no_channels_witness :
  blank_dc Objects.fb_no_channels 3 = Err IndexError.
Proof.
  apply (blank_dc_no_channels Objects.fb_no_channels 3); [ reflexivity | lia ].
Defined.
